(** * Viewport navigation of the building plan viewer (draw.py)

    A shallow embedding of [read_excel_data], [read_sensor_data], of the
    drawing and [main], and of the navigation methods of the class
    [BuildingPlanViewer], followed by their properties.

    The viewer is embedded twice.

    The running viewer (module [Binary64]) is the code as Python runs it:
    every number is a binary64 float with its rounding, and [set_xlim] and
    [set_ylim] are matplotlib's, which raise [ValueError] on a limit that is
    NaN or infinite and widen limits that are identical or too close.

    The exact viewer (the definitions outside that module) reads the same
    formulas over exact rationals ([Q]; [==] is equality of values) with
    axes that store any pair as given.  It says what the formulas denote:
    what is proved of it holds of the running viewer where binary64 computes
    without rounding ([exactly], [tracks]), and where the property does not
    depend on the numbers computed.

    [draw_idle] only counts the redraw requests. *)

From Stdlib Require Import QArith Qfield Lqa Lia PeanoNat List String Bool Floats.
Set Warnings "-inexact-float".
Import ListNotations.
Open Scope Q_scope.

(** ** Loading the layers *)

Module Loader.

(** What a call of [pd.read_excel(file_path, sheet_name=...)] can do. *)
Inductive read_outcome (A : Type) : Type :=
  | Frame (df : A)
  | RaiseFileNotFound
  | RaiseException (e : string).
Arguments Frame {A} df.
Arguments RaiseFileNotFound {A}.
Arguments RaiseException {A} e.

(** The lines the loader prints. *)
Inductive message : Type :=
  | warn_wall_empty                     (* line 27 *)
  | warn_slab_empty                     (* line 29 *)
  | error_file_not_found (p : string)   (* line 34 *)
  | error_reading (e : string)          (* line 37 *)
  | warn_sensor_empty                   (* line 58 *)
  | error_sensor_file_not_found (p : string)  (* line 63 *)
  | error_sensor_reading (e : string)   (* line 66 *).

Section Tables.

Variable cell : Type.

(** A data frame: its number of columns and its rows. *)
Record DataFrame : Type := mkFrame {
  n_columns : nat;
  frame_rows : list (list cell)
}.

(** The array [df.iloc[r:, lo:hi].values]. *)
Record ndarray : Type := mkArray {
  array_columns : nat;
  array_rows : list (list cell)
}.

Definition iloc (r lo hi : nat) (df : DataFrame) : ndarray :=
  {| array_columns := Nat.min hi (n_columns df) - lo;
     array_rows :=
       map (fun row => firstn (hi - lo) (skipn lo row))
           (skipn r (frame_rows df)) |}.

(** [a.size]: the number of elements. *)
Definition size (a : ndarray) : nat :=
  (List.length (array_rows a) * array_columns a)%nat.

(** The spreadsheet files: what reading a sheet of a path gives. *)
Variable read_excel : string -> string -> read_outcome DataFrame.

Definition when (b : bool) (m : message) : list message :=
  if b then [m] else [].

(** [read_excel_data(file_path)]: the printed lines and the returned triple
    [(wall_data, slab1_data, stair_data)]. *)
Definition read_excel_data (file_path : string)
  : list message * (option ndarray * option ndarray * option ndarray) :=
  match read_excel file_path "wall" with
  | RaiseFileNotFound => ([error_file_not_found file_path], (None, None, None))
  | RaiseException e => ([error_reading e], (None, None, None))
  | Frame df_wall =>
    match read_excel file_path "slab1" with
    | RaiseFileNotFound =>
        ([error_file_not_found file_path], (None, None, None))
    | RaiseException e => ([error_reading e], (None, None, None))
    | Frame df_slab1 =>
        let wall_data := iloc 1 2 6 df_wall in
        let slab1_data := iloc 2 2 6 df_slab1 in
        (when (Nat.eqb (size wall_data) 0) warn_wall_empty
           ++ when (Nat.eqb (size slab1_data) 0) warn_slab_empty,
         (Some wall_data, Some slab1_data, None))
    end
  end.

(** [read_sensor_data(file_path)]. *)
Definition read_sensor_data (file_path : string)
  : list message * option ndarray :=
  match read_excel file_path "Sheet1" with
  | RaiseFileNotFound => ([error_sensor_file_not_found file_path], None)
  | RaiseException e => ([error_sensor_reading e], None)
  | Frame df_sensor =>
      let sensor_data := iloc 1 3 5 df_sensor in
      (when (Nat.eqb (size sensor_data) 0) warn_sensor_empty, Some sensor_data)
  end.

(** The test of [main] (line 333) that decides whether the plan is drawn:
    [wall_data is not None and slab1_data is not None]. *)
Definition main_draws (wall_data slab1_data : option ndarray) : bool :=
  match wall_data, slab1_data with
  | Some _, Some _ => true
  | _, _ => false
  end.

End Tables.

Arguments mkFrame {cell} _ _.
Arguments n_columns {cell} _.
Arguments frame_rows {cell} _.
Arguments mkArray {cell} _ _.
Arguments array_columns {cell} _.
Arguments array_rows {cell} _.
Arguments iloc {cell} _ _ _ _.
Arguments size {cell} _.
Arguments read_excel_data {cell} _ _.
Arguments read_sensor_data {cell} _ _.
Arguments main_draws {cell} _ _.

(** A workbook whose every sheet holds a header row of five columns and no
    other row. *)
Definition header_only (file_path sheet_name : string)
    : read_outcome (DataFrame string) :=
  Frame (mkFrame 5 [["id"; "name"; "kind"; "x"; "y"]]%string).

(** A workbook that cannot be found. *)
Definition missing (file_path sheet_name : string)
    : read_outcome (DataFrame string) :=
  RaiseFileNotFound.

End Loader.

(** ** The viewer *)

(** An interval of the axes, (low, high), as [ax.get_xlim()] returns it. *)
Definition lim : Type := (Q * Q)%type.

Inductive MouseButton : Type := up | down | other_button.

(** A scroll event: [inaxes] tells whether [event.inaxes] is the viewer's
    axes; [xdata] and [ydata] are [None] when matplotlib has no data
    coordinates for the cursor. *)
Record ScrollEvent : Type := mkScroll {
  inaxes : bool;
  xdata : option Q;
  ydata : option Q;
  button : MouseButton
}.

(** The fields of [BuildingPlanViewer] that navigation uses: the limits of
    [self.ax], the saved [self.x_limits] and [self.y_limits], the two scale
    fields of the constructor, and the number of [draw_idle] requests. *)
Record BuildingPlanViewer : Type := mkViewer {
  ax_xlim : lim;
  ax_ylim : lim;
  x_limits : lim;
  y_limits : lim;
  base_scale : Q;
  current_scale : Q;
  redraws : nat
}.

Definition get_xlim (self : BuildingPlanViewer) : lim := ax_xlim self.
Definition get_ylim (self : BuildingPlanViewer) : lim := ax_ylim self.

Definition set_xlim (l : lim) (self : BuildingPlanViewer) : BuildingPlanViewer :=
  mkViewer l (ax_ylim self) (x_limits self) (y_limits self)
           (base_scale self) (current_scale self) (redraws self).

Definition set_ylim (l : lim) (self : BuildingPlanViewer) : BuildingPlanViewer :=
  mkViewer (ax_xlim self) l (x_limits self) (y_limits self)
           (base_scale self) (current_scale self) (redraws self).

Definition draw_idle (self : BuildingPlanViewer) : BuildingPlanViewer :=
  mkViewer (ax_xlim self) (ax_ylim self) (x_limits self) (y_limits self)
           (base_scale self) (current_scale self) (S (redraws self)).

(** [set_initial_view(center, zoom_level)] (lines 168-195). *)
Definition set_initial_view (center : Q * Q) (zoom_level : Q)
    (self : BuildingPlanViewer) : BuildingPlanViewer :=
  let (x_center, y_center) := center in
  let cur_xlim := get_xlim self in
  let cur_ylim := get_ylim self in
  let current_width := snd cur_xlim - fst cur_xlim in
  let current_height := snd cur_ylim - fst cur_ylim in
  let new_width := current_width * zoom_level in
  let new_height := current_height * zoom_level in
  let self := set_xlim (x_center - new_width / 2, x_center + new_width / 2) self in
  let self := set_ylim (y_center - new_height / 2, y_center + new_height / 2) self in
  mkViewer (ax_xlim self) (ax_ylim self) (get_xlim self) (get_ylim self)
           (base_scale self) (current_scale self) (redraws self).

(** The constructor with the end of [setup_plot] (lines 80-85 and 151-157).
    [fit_xlim] and [fit_ylim] are the limits the axes have once the layers
    are drawn. *)
Definition setup_plot (fit_xlim fit_ylim : lim)
    (initial_center : option (Q * Q)) (initial_zoom : Q) : BuildingPlanViewer :=
  let self := mkViewer fit_xlim fit_ylim fit_xlim fit_ylim 1 1 0 in
  match initial_center with
  | Some center => set_initial_view center initial_zoom self
  | None => self
  end.

(** Lines 219-228 of [on_scroll]: the zoom about the cursor, for the
    [scale_factor] that lines 212-217 chose.  [relx] and [rely] divide by
    the extent of the interval; on an interval of extent 0 the source
    divides by zero, where [/] on [Q] gives 0, so what is proved of the
    quotients below is proved for positive extents. *)
Definition scroll_zoom (xdata ydata scale_factor : Q)
    (self : BuildingPlanViewer) : BuildingPlanViewer :=
  let cur_xlim := get_xlim self in
  let cur_ylim := get_ylim self in
  let new_width := (snd cur_xlim - fst cur_xlim) * scale_factor in
  let new_height := (snd cur_ylim - fst cur_ylim) * scale_factor in
  let relx := (snd cur_xlim - xdata) / (snd cur_xlim - fst cur_xlim) in
  let rely := (snd cur_ylim - ydata) / (snd cur_ylim - fst cur_ylim) in
  let self := set_xlim (xdata - new_width * (1 - relx), xdata + new_width * relx) self in
  let self := set_ylim (ydata - new_height * (1 - rely), ydata + new_height * rely) self in
  draw_idle self.

(** Lines 212-217 of [on_scroll]. *)
Definition scroll_scale_factor (b : MouseButton) : Q :=
  let base_scale := 1.1 in
  match b with
  | up => 1 / base_scale
  | down => base_scale
  | other_button => 1
  end.

(** [on_scroll(event)] (lines 197-228). *)
Definition on_scroll (event : ScrollEvent) (self : BuildingPlanViewer)
    : BuildingPlanViewer :=
  if negb (inaxes event) then self
  else
    match xdata event, ydata event with
    | Some xdata, Some ydata =>
        scroll_zoom xdata ydata (scroll_scale_factor (button event)) self
    | _, _ => self
    end.

(** [zoom(scale_factor)] (lines 247-261). *)
Definition zoom (scale_factor : Q) (self : BuildingPlanViewer)
    : BuildingPlanViewer :=
  let cur_xlim := get_xlim self in
  let cur_ylim := get_ylim self in
  let x_center := (fst cur_xlim + snd cur_xlim) / 2 in
  let y_center := (fst cur_ylim + snd cur_ylim) / 2 in
  let new_width := (snd cur_xlim - fst cur_xlim) * scale_factor in
  let new_height := (snd cur_ylim - fst cur_ylim) * scale_factor in
  let self := set_xlim (x_center - new_width / 2, x_center + new_width / 2) self in
  let self := set_ylim (y_center - new_height / 2, y_center + new_height / 2) self in
  draw_idle self.

(** [pan(dx, dy)] (lines 263-274). *)
Definition pan (dx dy : Q) (self : BuildingPlanViewer) : BuildingPlanViewer :=
  let cur_xlim := get_xlim self in
  let cur_ylim := get_ylim self in
  let width := snd cur_xlim - fst cur_xlim in
  let height := snd cur_ylim - fst cur_ylim in
  let self := set_xlim (fst cur_xlim + dx * width, snd cur_xlim + dx * width) self in
  let self := set_ylim (fst cur_ylim + dy * height, snd cur_ylim + dy * height) self in
  draw_idle self.

(** [reset_view()] (lines 276-280). *)
Definition reset_view (self : BuildingPlanViewer) : BuildingPlanViewer :=
  let self := set_xlim (x_limits self) self in
  let self := set_ylim (y_limits self) self in
  draw_idle self.

(** [on_key_press(event)] (lines 230-245), on [event.key]. *)
Definition on_key_press (key : string) (self : BuildingPlanViewer)
    : BuildingPlanViewer :=
  if (key =? "r")%string || (key =? "R")%string then reset_view self
  else if (key =? "+")%string || (key =? "=")%string then zoom 1.2 self
  else if (key =? "-")%string then zoom 0.8 self
  else if (key =? "up")%string then pan 0 0.1 self
  else if (key =? "down")%string then pan 0 (-0.1) self
  else if (key =? "left")%string then pan (-0.1) 0 self
  else if (key =? "right")%string then pan 0.1 0 self
  else self.

(** ** Vocabulary of the properties *)


(** Middle of an interval. *)
Definition middle (l : lim) : Q := (fst l + snd l) / 2.

(** Positive extent: the high end lies strictly above the low end. *)
Definition positive (l : lim) : Prop := fst l < snd l.

(** Two intervals with the same values at both ends. *)
Definition lim_eq (l l' : lim) : Prop := fst l == fst l' /\ snd l == snd l'.

(** The current bounds (x interval, y interval) and the saved home bounds. *)
Definition current (self : BuildingPlanViewer) : lim * lim :=
  (ax_xlim self, ax_ylim self).

Definition home (self : BuildingPlanViewer) : lim * lim :=
  (x_limits self, y_limits self).

Definition same_bounds (b b' : lim * lim) : Prop :=
  lim_eq (fst b) (fst b') /\ lim_eq (snd b) (snd b').


(** The positivity invariant of the current bounds, with that of the home
    bounds a reset copies back. *)
Definition positive_bounds (b : lim * lim) : Prop :=
  positive (fst b) /\ positive (snd b).

Definition valid (self : BuildingPlanViewer) : Prop :=
  positive_bounds (current self) /\ positive_bounds (home self).

(** The navigation calls a viewer receives after its construction. *)
Inductive call : Type :=
  | Scroll (event : ScrollEvent)
  | KeyPress (key : string)
  | Zoom (scale_factor : Q)
  | Pan (dx dy : Q)
  | Reset.

Definition exec (c : call) (self : BuildingPlanViewer) : BuildingPlanViewer :=
  match c with
  | Scroll event => on_scroll event self
  | KeyPress key => on_key_press key self
  | Zoom scale_factor => zoom scale_factor self
  | Pan dx dy => pan dx dy self
  | Reset => reset_view self
  end.

Definition run (cs : list call) (self : BuildingPlanViewer) : BuildingPlanViewer :=
  fold_left (fun s c => exec c s) cs self.


(** The viewer with other saved limits. *)
Definition with_home (h : lim * lim) (self : BuildingPlanViewer)
    : BuildingPlanViewer :=
  mkViewer (ax_xlim self) (ax_ylim self) (fst h) (snd h)
           (base_scale self) (current_scale self) (redraws self).

(** A viewer showing the square (0,100) x (0,100), home included. *)
Definition square100 : BuildingPlanViewer :=
  mkViewer (0, 100) (0, 100) (0, 100) (0, 100) 1 1 0.

(** An interval holds a point, ends included. *)
Definition inside (l : lim) (a : Q) : Prop := fst l <= a /\ a <= snd l.

(** The keys [on_key_press] answers to. *)
Definition known_keys : list string :=
  ["r"; "R"; "+"; "="; "-"; "up"; "down"; "left"; "right"]%string.

(** ** The viewer as the code runs it: binary64 and matplotlib's limits

    The definitions above read the formulas of the viewer over exact
    numbers and let the axes store any pair.  The module [Binary64] is the
    code as Python runs it: every number is a binary64 float with its
    rounding, and [set_xlim]/[set_ylim] are those of matplotlib
    ([Axis._set_lim]): they raise [ValueError] on a limit that is NaN or
    infinite, widen limits that are identical or too close
    ([Locator.nonsingular]), and keep the order in which the limits were
    given. *)

Module Binary64.

Local Open Scope float_scope.

Definition lim : Type := (float * float)%type.

Record ScrollEvent : Type := mkScroll {
  inaxes : bool;
  xdata : option float;
  ydata : option float;
  button : MouseButton
}.

Record BuildingPlanViewer : Type := mkViewer {
  ax_xlim : lim;
  ax_ylim : lim;
  x_limits : lim;
  y_limits : lim;
  base_scale : float;
  current_scale : float;
  redraws : nat
}.

(** What a method leaves behind: it returned, or [set_xlim]/[set_ylim]
    raised [ValueError]; in both cases the state the viewer is then in. *)
Inductive result : Type :=
  | Returned (self : BuildingPlanViewer)
  | Raised (self : BuildingPlanViewer).

Definition state_of (r : result) : BuildingPlanViewer :=
  match r with
  | Returned self => self
  | Raised self => self
  end.

(** Python's [max(a, b)]. *)
Definition max (a b : float) : float := if a <? b then b else a.

(** [matplotlib.transforms.nonsingular(vmin, vmax, expander=0.05,
    tiny=1e-15, increasing=True)], as [Locator.nonsingular] calls it. *)
Definition nonsingular (vmin vmax : float) : float * float :=
  let expander := 0.05 in
  let tiny := 1e-15 in
  if negb (is_finite vmin) || negb (is_finite vmax) then (- expander, expander)
  else
    let swapped := vmax <? vmin in
    let (vmin, vmax) := if swapped then (vmax, vmin) else (vmin, vmax) in
    let maxabsvalue := max (abs vmin) (abs vmax) in
    if maxabsvalue <? (1e6 / tiny) * 2.2250738585072014e-308
    then (- expander, expander)
    else if vmax - vmin <=? maxabsvalue * tiny
    then if (vmax =? 0) && (vmin =? 0)
         then (- expander, expander)
         else (vmin - expander * abs vmin, vmax + expander * abs vmax)
    else (vmin, vmax).

(** [sorted([v0, v1], reverse=reverse)]. *)
Definition sorted (v0 v1 : float) (reverse : bool) : float * float :=
  let (lo, hi) := if v1 <? v0 then (v1, v0) else (v0, v1) in
  if reverse then (hi, lo) else (lo, hi).

(** [Axis._set_lim(v0, v1)] on a linear axis: the interval that is stored,
    or [None] when [ValueError] is raised. *)
Definition set_lim (v0 v1 : float) : option lim :=
  if is_finite v0 && is_finite v1
  then
    let reverse := v1 <? v0 in
    let (v0, v1) := nonsingular v0 v1 in
    Some (sorted v0 v1 reverse)
  else None.

Definition get_xlim (self : BuildingPlanViewer) : lim := ax_xlim self.
Definition get_ylim (self : BuildingPlanViewer) : lim := ax_ylim self.

Definition set_xlim (l : lim) (self : BuildingPlanViewer)
    : option BuildingPlanViewer :=
  match set_lim (fst l) (snd l) with
  | Some stored =>
      Some (mkViewer stored (ax_ylim self) (x_limits self) (y_limits self)
                     (base_scale self) (current_scale self) (redraws self))
  | None => None
  end.

Definition set_ylim (l : lim) (self : BuildingPlanViewer)
    : option BuildingPlanViewer :=
  match set_lim (fst l) (snd l) with
  | Some stored =>
      Some (mkViewer (ax_xlim self) stored (x_limits self) (y_limits self)
                     (base_scale self) (current_scale self) (redraws self))
  | None => None
  end.

Definition draw_idle (self : BuildingPlanViewer) : BuildingPlanViewer :=
  mkViewer (ax_xlim self) (ax_ylim self) (x_limits self) (y_limits self)
           (base_scale self) (current_scale self) (S (redraws self)).

(** [set_xlim(xlim)], then [set_ylim(ylim)], then [draw_idle()]: the end of
    [on_scroll], [zoom], [pan] and [reset_view]. *)
Definition set_limits_and_draw (xlim ylim : lim) (self : BuildingPlanViewer)
    : result :=
  match set_xlim xlim self with
  | None => Raised self
  | Some self =>
      match set_ylim ylim self with
      | None => Raised self
      | Some self => Returned (draw_idle self)
      end
  end.

(** [set_initial_view(center, zoom_level)] (lines 168-195). *)
Definition set_initial_view (center : float * float) (zoom_level : float)
    (self : BuildingPlanViewer) : result :=
  let (x_center, y_center) := center in
  let cur_xlim := get_xlim self in
  let cur_ylim := get_ylim self in
  let current_width := snd cur_xlim - fst cur_xlim in
  let current_height := snd cur_ylim - fst cur_ylim in
  let new_width := current_width * zoom_level in
  let new_height := current_height * zoom_level in
  match set_xlim (x_center - new_width / 2, x_center + new_width / 2) self with
  | None => Raised self
  | Some self =>
      match set_ylim (y_center - new_height / 2, y_center + new_height / 2) self with
      | None => Raised self
      | Some self =>
          Returned (mkViewer (ax_xlim self) (ax_ylim self)
                             (get_xlim self) (get_ylim self)
                             (base_scale self) (current_scale self)
                             (redraws self))
      end
  end.

(** The constructor with the end of [setup_plot] (lines 80-85, 151-157);
    [fit_xlim] and [fit_ylim] are the limits the axes have once the layers
    are drawn.  [Raised]: the constructor raised. *)
Definition setup_plot (fit_xlim fit_ylim : lim)
    (initial_center : option (float * float)) (initial_zoom : float) : result :=
  let self := mkViewer fit_xlim fit_ylim fit_xlim fit_ylim 1 1 0 in
  match initial_center with
  | Some center => set_initial_view center initial_zoom self
  | None => Returned self
  end.

(** Lines 219-228 of [on_scroll]. *)
Definition scroll_zoom (xdata ydata scale_factor : float)
    (self : BuildingPlanViewer) : result :=
  let cur_xlim := get_xlim self in
  let cur_ylim := get_ylim self in
  let new_width := (snd cur_xlim - fst cur_xlim) * scale_factor in
  let new_height := (snd cur_ylim - fst cur_ylim) * scale_factor in
  let relx := (snd cur_xlim - xdata) / (snd cur_xlim - fst cur_xlim) in
  let rely := (snd cur_ylim - ydata) / (snd cur_ylim - fst cur_ylim) in
  set_limits_and_draw
    (xdata - new_width * (1 - relx), xdata + new_width * relx)
    (ydata - new_height * (1 - rely), ydata + new_height * rely)
    self.

(** Lines 212-217 of [on_scroll]. *)
Definition scroll_scale_factor (b : MouseButton) : float :=
  let base_scale := 1.1 in
  match b with
  | up => 1 / base_scale
  | down => base_scale
  | other_button => 1
  end.

(** [on_scroll(event)] (lines 197-228). *)
Definition on_scroll (event : ScrollEvent) (self : BuildingPlanViewer) : result :=
  if negb (inaxes event) then Returned self
  else
    match xdata event, ydata event with
    | Some xdata, Some ydata =>
        scroll_zoom xdata ydata (scroll_scale_factor (button event)) self
    | _, _ => Returned self
    end.

(** [zoom(scale_factor)] (lines 247-261). *)
Definition zoom (scale_factor : float) (self : BuildingPlanViewer) : result :=
  let cur_xlim := get_xlim self in
  let cur_ylim := get_ylim self in
  let x_center := (fst cur_xlim + snd cur_xlim) / 2 in
  let y_center := (fst cur_ylim + snd cur_ylim) / 2 in
  let new_width := (snd cur_xlim - fst cur_xlim) * scale_factor in
  let new_height := (snd cur_ylim - fst cur_ylim) * scale_factor in
  set_limits_and_draw
    (x_center - new_width / 2, x_center + new_width / 2)
    (y_center - new_height / 2, y_center + new_height / 2)
    self.

(** The limits [zoom(scale_factor)] hands to [set_xlim] and [set_ylim]. *)
Definition zoom_limits (scale_factor : float) (self : BuildingPlanViewer)
    : lim * lim :=
  let cur_xlim := get_xlim self in
  let cur_ylim := get_ylim self in
  let x_center := (fst cur_xlim + snd cur_xlim) / 2 in
  let y_center := (fst cur_ylim + snd cur_ylim) / 2 in
  let new_width := (snd cur_xlim - fst cur_xlim) * scale_factor in
  let new_height := (snd cur_ylim - fst cur_ylim) * scale_factor in
  ((x_center - new_width / 2, x_center + new_width / 2),
   (y_center - new_height / 2, y_center + new_height / 2)).

(** [pan(dx, dy)] (lines 263-274). *)
Definition pan (dx dy : float) (self : BuildingPlanViewer) : result :=
  let cur_xlim := get_xlim self in
  let cur_ylim := get_ylim self in
  let width := snd cur_xlim - fst cur_xlim in
  let height := snd cur_ylim - fst cur_ylim in
  set_limits_and_draw
    (fst cur_xlim + dx * width, snd cur_xlim + dx * width)
    (fst cur_ylim + dy * height, snd cur_ylim + dy * height)
    self.

(** [reset_view()] (lines 276-280). *)
Definition reset_view (self : BuildingPlanViewer) : result :=
  set_limits_and_draw (x_limits self) (y_limits self) self.

(** [on_key_press(event)] (lines 230-245), on [event.key]. *)
Definition on_key_press (key : string) (self : BuildingPlanViewer) : result :=
  if (key =? "r")%string || (key =? "R")%string then reset_view self
  else if (key =? "+")%string || (key =? "=")%string then zoom 1.2 self
  else if (key =? "-")%string then zoom 0.8 self
  else if (key =? "up")%string then pan 0 0.1 self
  else if (key =? "down")%string then pan 0 (-0.1) self
  else if (key =? "left")%string then pan (-0.1) 0 self
  else if (key =? "right")%string then pan 0.1 0 self
  else Returned self.

Definition current (self : BuildingPlanViewer) : lim * lim :=
  (ax_xlim self, ax_ylim self).

Definition home (self : BuildingPlanViewer) : lim * lim :=
  (x_limits self, y_limits self).

(** The navigation calls, and a run of them: after a call that raised,
    the event loop goes on with the state the call left. *)
Inductive call : Type :=
  | Scroll (event : ScrollEvent)
  | KeyPress (key : string)
  | Zoom (scale_factor : float)
  | Pan (dx dy : float)
  | Reset.

Definition exec (c : call) (self : BuildingPlanViewer) : result :=
  match c with
  | Scroll event => on_scroll event self
  | KeyPress key => on_key_press key self
  | Zoom scale_factor => zoom scale_factor self
  | Pan dx dy => pan dx dy self
  | Reset => reset_view self
  end.

Definition run (cs : list call) (self : BuildingPlanViewer) : BuildingPlanViewer :=
  fold_left (fun s c => state_of (exec c s)) cs self.

(** The calls that return before any limit is set. *)
Definition ignored (c : call) : bool :=
  match c with
  | Scroll event =>
      negb (inaxes event)
      || match xdata event, ydata event with
         | Some _, Some _ => false
         | _, _ => true
         end
  | KeyPress key => negb (existsb (String.eqb key) known_keys)
  | _ => false
  end.

Definition raised (r : result) : bool :=
  match r with
  | Returned _ => false
  | Raised _ => true
  end.

(** The number of calls of a run that reached [draw_idle]. *)
Fixpoint completed (cs : list call) (self : BuildingPlanViewer) : nat :=
  match cs with
  | [] => 0%nat
  | c :: cs' =>
      ((if ignored c || raised (exec c self) then 0 else 1)
       + completed cs' (state_of (exec c self)))%nat
  end.


(** A limit pair on which [set_lim] raises. *)
Definition rejected (l : lim) : bool :=
  negb (is_finite (fst l) && is_finite (snd l)).

(** A viewer showing the square (0,100) x (0,100), home included. *)
Definition square100 : BuildingPlanViewer :=
  mkViewer (0, 100) (0, 100) (0, 100) (0, 100) 1 1 0.

End Binary64.











(** ** Drawing the layers and [main]

    The cells of the arrays that are drawn are taken to be numbers. *)

Module Drawing.
Import Loader.

(** The exceptions the drawing code can raise. *)
Inductive exn : Type := TypeError | ValueError | IndexError.

Inductive outcome (A : Type) : Type :=
  | Returned (a : A)
  | Raised (e : exn).
Arguments Returned {A} a.
Arguments Raised {A} e.

Definition bind {A B : Type} (m : outcome A) (k : A -> outcome B) : outcome B :=
  match m with
  | Returned a => k a
  | Raised e => Raised e
  end.

Notation "x <- m ;; k" := (bind m (fun x => k))
  (at level 61, m at next level, right associativity).

(** The three kinds of rectangle; colours, line width, alpha and label are
    fixed per kind (lines 98-99, 108-109, 119-120). *)
Inductive layer : Type := slab_layer | wall_layer | stair_layer.

(** [Rectangle((x, y), width, height, ...)]. *)
Record Rectangle : Type := mkRectangle {
  rect_xy : Q * Q;
  rect_width : Q;
  rect_height : Q;
  rect_layer : layer
}.

Inductive legend_entry : Type := legend_slab | legend_wall | legend_sensor.

(** What the axes hold once [setup_plot] has drawn: the patches in the order
    they were added, the scatter of the sensors if one was made, and the
    handles of the legend. *)
Record Axes : Type := mkAxes {
  patches : list Rectangle;
  scatter : option (list Q * list Q);
  legend : list legend_entry
}.

(** [x_start, x_end, y_start, y_end = row]. *)
Definition unpack4 (row : list Q) : outcome (Q * Q * Q * Q) :=
  match row with
  | [x_start; x_end; y_start; y_end] => Returned (x_start, x_end, y_start, y_end)
  | _ => Raised ValueError
  end.

(** The body of the three loops of [setup_plot] (lines 93-100, 103-110,
    114-121), adding to the patches already drawn. *)
Fixpoint add_patches (k : layer) (rows : list (list Q)) (drawn : list Rectangle)
    : outcome (list Rectangle) :=
  match rows with
  | [] => Returned drawn
  | row :: rows' =>
      match unpack4 row with
      | Raised e => Raised e
      | Returned (x_start, x_end, y_start, y_end) =>
          let width := x_end - x_start in
          let height := y_end - y_start in
          add_patches k rows'
            (drawn ++ [mkRectangle (x_start, y_start) width height k])
      end
  end.

(** [for row in data]: [None] is not iterable. *)
Definition rows_of (data : option (ndarray Q)) : outcome (list (list Q)) :=
  match data with
  | Some a => Returned (array_rows a)
  | None => Raised TypeError
  end.

(** [data is not None and len(data) > 0]. *)
Definition present (data : option (ndarray Q)) : bool :=
  match data with
  | Some a => (0 <? List.length (array_rows a))%nat
  | None => false
  end.

(** [sensor_data[:, 0]] and [sensor_data[:, 1]] (lines 125-126). *)
Definition columns01 (a : ndarray Q) : outcome (list Q * list Q) :=
  if (2 <=? array_columns a)%nat
  then Returned (map (fun row => nth 0 row 0) (array_rows a),
                 map (fun row => nth 1 row 0) (array_rows a))
  else Raised IndexError.

(** The drawing part of [setup_plot] (lines 92-149). *)
Definition draw_layers (wall_data slab1_data stair_data sensor_data : option (ndarray Q))
    : outcome Axes :=
  slab_rows <- rows_of slab1_data ;;
  drawn <- add_patches slab_layer slab_rows [] ;;
  wall_rows <- rows_of wall_data ;;
  drawn <- add_patches wall_layer wall_rows drawn ;;
  drawn <- (if present stair_data
            then stair_rows <- rows_of stair_data ;;
                 add_patches stair_layer stair_rows drawn
            else Returned drawn) ;;
  points <- (match sensor_data with
             | Some a =>
                 if present sensor_data
                 then xy <- columns01 a ;; Returned (Some xy)
                 else Returned None
             | None => Returned None
             end) ;;
  Returned (mkAxes drawn points
              ([legend_slab; legend_wall]
               ++ if present sensor_data then [legend_sensor] else [])).

(** What [main] and [save_and_show] print beside the loader's lines. *)
Inductive main_message : Type :=
  | loader_line (m : message)
  | sensor_count (n : nat)              (* line 326 *)
  | first_sensor (x y : Q)              (* line 328 *)
  | sensor_unavailable                  (* line 330 *)
  | cannot_draw                         (* line 339 *)
  | figure_saved                        (* line 285 *)
  | usage                               (* lines 286-292 *).

Section Run.

(** The workbooks, and the limits matplotlib gives the axes once the
    layers are drawn ([ax.get_xlim()], [ax.get_ylim()] of lines 152-153). *)
Variable read_excel : string -> string -> read_outcome (DataFrame Q).
Variable autoscale : Axes -> Binary64.lim * Binary64.lim.

(** [BuildingPlanViewer(...)]: the constructor (lines 74-88), giving the
    drawn axes and the navigation state; [ValueError] when
    [set_initial_view] raises. *)
Definition new_viewer (wall_data slab1_data stair_data sensor_data : option (ndarray Q))
    (initial_center : option (float * float)) (initial_zoom : float)
    : outcome (Axes * Binary64.BuildingPlanViewer) :=
  ax <- draw_layers wall_data slab1_data stair_data sensor_data ;;
  match Binary64.setup_plot (fst (autoscale ax)) (snd (autoscale ax))
                            initial_center initial_zoom with
  | Binary64.Returned viewer => Returned (ax, viewer)
  | Binary64.Raised _ => Raised ValueError
  end.

(** [draw_building_plan(...)] with [save_and_show] (lines 282-293, 307-308). *)
Definition draw_building_plan (wall_data slab1_data stair_data sensor_data : option (ndarray Q))
    (initial_center : option (float * float)) (initial_zoom : float)
    : list main_message * outcome (Axes * Binary64.BuildingPlanViewer) :=
  match new_viewer wall_data slab1_data stair_data sensor_data
                   initial_center initial_zoom with
  | Returned viewer => ([figure_saved; usage], Returned viewer)
  | Raised e => ([], Raised e)
  end.

(** The debug lines of [main] on the sensors (lines 325-330): what is
    printed, and whether reading the first point raised. *)
Definition report_sensors (sensor_data : option (ndarray Q))
    : list main_message * outcome unit :=
  match sensor_data with
  | Some a =>
      let counted := [sensor_count (List.length (array_rows a))] in
      match array_rows a with
      | [] => (counted, Returned tt)
      | row :: _ =>
          if (2 <=? array_columns a)%nat
          then (counted ++ [first_sensor (nth 0 row 0) (nth 1 row 0)],
                Returned tt)
          else (counted, Raised IndexError)
      end
  | None => ([sensor_unavailable], Returned tt)
  end.

Definition building_file_path : string := "corrdinate\2\2边界坐标.xlsx".
Definition sensor_file_path : string := "传感器\假传感器数据格式蓝色.xlsx".

(** [main()] (lines 310-339): what is printed, and the viewer that is shown,
    if one is. *)
Definition main
    : list main_message * outcome (option (Axes * Binary64.BuildingPlanViewer)) :=
  let (log1, data) := read_excel_data read_excel building_file_path in
  let '(wall_data, slab1_data, stair_data) := data in
  let (log2, sensor_data) := read_sensor_data read_excel sensor_file_path in
  let (lines, reported) := report_sensors sensor_data in
  let log := map loader_line (log1 ++ log2) ++ lines in
  match reported with
  | Raised e => (log, Raised e)
  | Returned _ =>
      match wall_data, slab1_data with
      | Some _, Some _ =>
          let initial_center := (33950, 20000)%float in
          let initial_zoom := 0.5%float in
          let (shown, r) :=
            draw_building_plan wall_data slab1_data stair_data sensor_data
                               (Some initial_center) initial_zoom in
          (log ++ shown, viewer <- r ;; Returned (Some viewer))
      | _, _ => (log ++ [cannot_draw], Returned None)
      end
  end.

End Run.

(** The sensor sheet, if it can be read, has no row after the first or has
    at least five columns. *)
Definition sensors_usable (read_excel : string -> string -> read_outcome (DataFrame Q))
    : Prop :=
  forall df, read_excel sensor_file_path "Sheet1"%string = Frame df ->
             (List.length (frame_rows df) <= 1)%nat \/ (5 <= n_columns df)%nat.

(** A frame and an array are rectangular: every row has the number of
    columns of the table. *)
Definition rectangular_frame (df : DataFrame Q) : Prop :=
  Forall (fun row => List.length row = n_columns df) (frame_rows df).

Definition rectangular (a : ndarray Q) : Prop :=
  Forall (fun row => List.length row = array_columns a) (array_rows a).

(** The rectangle a row of four numbers is drawn as. *)
Definition patch_of (k : layer) (row : list Q) : Rectangle :=
  mkRectangle (nth 0 row 0, nth 2 row 0)
              (nth 1 row 0 - nth 0 row 0) (nth 3 row 0 - nth 2 row 0) k.

(** The row a rectangle stands for: [x, x + width, y, y + height]. *)
Definition row_of (r : Rectangle) : list Q :=
  [fst (rect_xy r); fst (rect_xy r) + rect_width r;
   snd (rect_xy r); snd (rect_xy r) + rect_height r].

(** Three sets of workbooks: one with a wall row, a slab row and a sensor
    point after the rows the loader skips; none at all; and the first one
    with a sensor sheet of four columns. *)
Definition plan_book (file_path sheet_name : string) : read_outcome (DataFrame Q) :=
  if (sheet_name =? "wall")%string
  then Frame (mkFrame 6 [[0; 0; 0; 0; 0; 0]; [1; 1; 0; 4; 0; 1]])
  else if (sheet_name =? "slab1")%string
  then Frame (mkFrame 6 [[0; 0; 0; 0; 0; 0]; [0; 0; 0; 0; 0; 0]; [1; 1; 0; 4; 0; 4]])
  else if (sheet_name =? "Sheet1")%string
  then Frame (mkFrame 5 [[0; 0; 0; 0; 0]; [1; 1; 1; 2; 3]])
  else RaiseException "no such sheet".

Definition no_book (file_path sheet_name : string) : read_outcome (DataFrame Q) :=
  RaiseFileNotFound.

Definition narrow_sensor_book (file_path sheet_name : string)
    : read_outcome (DataFrame Q) :=
  if (sheet_name =? "Sheet1")%string
  then Frame (mkFrame 4 [[0; 0; 0; 0]; [1; 1; 1; 2]])
  else plan_book file_path sheet_name.

(** The first set of workbooks with a wall sheet that has no row beyond
    the one the loader skips, and with a wall sheet of two columns. *)
Definition rowless_wall_book (file_path sheet_name : string)
    : read_outcome (DataFrame Q) :=
  if (sheet_name =? "wall")%string
  then Frame (mkFrame 6 [[0; 0; 0; 0; 0; 0]])
  else plan_book file_path sheet_name.

Definition narrow_wall_book (file_path sheet_name : string)
    : read_outcome (DataFrame Q) :=
  if (sheet_name =? "wall")%string
  then Frame (mkFrame 2 [[0; 0]; [1; 1]])
  else plan_book file_path sheet_name.

(** Fitted limits that do not depend on what was drawn. *)
Definition fixed_autoscale (ax : Axes) : Binary64.lim * Binary64.lim :=
  ((10000, 50000), (0, 30000))%float.

End Drawing.

(** ** Arithmetic of one interval *)







Lemma centred_middle (c w : Q) : ((c - w / 2) + (c + w / 2)) / 2 == c.
Proof. field. Qed.

(** ** What each method does to the two intervals *)







Lemma zoom_middle_x f self :
  middle (ax_xlim (zoom f self)) == middle (ax_xlim self).
Proof. destruct self as [[lo hi] ? ? ? ? ? ?]. apply centred_middle. Qed.

Lemma zoom_middle_y f self :
  middle (ax_ylim (zoom f self)) == middle (ax_ylim self).
Proof. destruct self as [? [lo hi] ? ? ? ? ?]. apply centred_middle. Qed.



(** ** The saved limits are a frame of navigation *)

Lemma scroll_zoom_home x y f self : home (scroll_zoom x y f self) = home self.
Proof. reflexivity. Qed.

Lemma on_scroll_home event self : home (on_scroll event self) = home self.
Proof.
  unfold on_scroll.
  destruct (inaxes event), (xdata event), (ydata event); reflexivity.
Qed.

Lemma zoom_home f self : home (zoom f self) = home self.
Proof. reflexivity. Qed.

Lemma pan_home dx dy self : home (pan dx dy self) = home self.
Proof. reflexivity. Qed.

Lemma reset_view_home self : home (reset_view self) = home self.
Proof. reflexivity. Qed.

(** [on_key_press] is one of seven calls, or nothing. *)
Lemma on_key_press_cases key self :
  on_key_press key self = reset_view self \/
  on_key_press key self = zoom 1.2 self \/
  on_key_press key self = zoom 0.8 self \/
  (exists dx dy, on_key_press key self = pan dx dy self) \/
  on_key_press key self = self.
Proof.
  unfold on_key_press.
  destruct ((key =? "r")%string || (key =? "R")%string); [now left |].
  destruct ((key =? "+")%string || (key =? "=")%string); [now right; left |].
  destruct (key =? "-")%string; [now right; right; left |].
  destruct (key =? "up")%string; [right; right; right; left; eauto |].
  destruct (key =? "down")%string; [right; right; right; left; eauto |].
  destruct (key =? "left")%string; [right; right; right; left; eauto |].
  destruct (key =? "right")%string; [right; right; right; left; eauto |].
  now right; right; right; right.
Qed.

Lemma on_key_press_home key self : home (on_key_press key self) = home self.
Proof.
  destruct (on_key_press_cases key self) as [E | [E | [E | [(dx & dy & E) | E]]]];
    rewrite E; reflexivity.
Qed.

Lemma exec_home c self : home (exec c self) = home self.
Proof.
  destruct c; cbn;
    auto using on_scroll_home, on_key_press_home, zoom_home, pan_home,
               reset_view_home.
Qed.

Lemma run_home cs self : home (run cs self) = home self.
Proof.
  revert self. induction cs as [| c cs IH]; intro self; cbn.
  - reflexivity.
  - unfold run in IH. rewrite IH. apply exec_home.
Qed.

(** ** Positive extents are kept by every call within contract *)








(** ** Properties over exact numbers *)

(** C2, as stated, fails: [zoom] has no rejection.  With the non-positive
    factor -1 on the square (0,100,0,100) it returns the bounds
    (100,0,100,0): the factor was applied and the current bounds changed. *)
Lemma zoom_minus_one_is_applied :
  -1 <= 0 /\
  current (zoom (-1) square100) <> current square100 /\
  same_bounds (current (zoom (-1) square100)) ((100, 0), (100, 0)).
Proof.
  split; [discriminate |]. split.
  - intro E. apply (f_equal (fun b => Qnum (fst (fst b)))) in E.
    vm_compute in E. discriminate E.
  - repeat split; reflexivity.
Qed.



(** C4.  After any sequence of navigation calls, [reset_view] makes the
    current bounds the very home bounds the viewer started with, and leaves
    the home bounds as they were; a second [reset_view] right after gives the
    same bounds as the first. *)
Theorem reset_view_restores_home :
  forall (cs : list call) (self : BuildingPlanViewer),
    current (reset_view (run cs self)) = home self /\
    home (reset_view (run cs self)) = home self /\
    current (reset_view (reset_view (run cs self)))
    = current (reset_view (run cs self)).
Proof.
  intros cs self.
  assert (H : current (reset_view (run cs self)) = home self).
  { change (home (run cs self) = home self). apply run_home. }
  split; [exact H | split].
  - rewrite reset_view_home. apply run_home.
  - reflexivity.
Qed.



(** C8.  The wheel zoom, the keyboard zoom and the pan leave the home bounds
    as they were, and the bounds they compute do not depend on the home
    bounds: only [reset_view] (and the constructor) touch them. *)
Theorem navigation_frames_home :
  forall (self : BuildingPlanViewer) (event : ScrollEvent)
         (x y f dx dy : Q) (h : lim * lim),
    home (on_scroll event self) = home self /\
    home (scroll_zoom x y f self) = home self /\
    home (zoom f self) = home self /\
    home (pan dx dy self) = home self /\
    current (on_scroll event (with_home h self))
    = current (on_scroll event self) /\
    current (zoom f (with_home h self)) = current (zoom f self) /\
    current (pan dx dy (with_home h self)) = current (pan dx dy self).
Proof.
  intros self event x y f dx dy h.
  split; [apply on_scroll_home |].
  split; [reflexivity |]. split; [reflexivity |]. split; [reflexivity |].
  split; [| split; reflexivity].
  unfold on_scroll.
  destruct (inaxes event), (xdata event), (ydata event); reflexivity.
Qed.

(** C10.  A scroll event whose cursor is outside the axes, or that has no
    data coordinate on one axis, leaves the viewer exactly as it was: the
    bounds, the home bounds, and no redraw is requested. *)
Theorem on_scroll_ignored :
  forall (event : ScrollEvent) (self : BuildingPlanViewer),
    inaxes event = false \/ xdata event = None \/ ydata event = None ->
    on_scroll event self = self /\
    current (on_scroll event self) = current self.
Proof.
  intros event self H.
  assert (E : on_scroll event self = self).
  { unfold on_scroll.
    destruct H as [H | [H | H]]; rewrite H; cbn; try reflexivity.
    - destruct (inaxes event); reflexivity.
    - destruct (inaxes event), (xdata event); reflexivity. }
  split; [exact E | rewrite E; reflexivity].
Qed.

Lemma on_scroll_ignored_witness :
  (let event := mkScroll false (Some 20) (Some 20) up in
   (inaxes event = false \/ xdata event = None \/ ydata event = None) /\
   on_scroll event square100 = square100) /\
  (let event := mkScroll true None (Some 20) down in
   (inaxes event = false \/ xdata event = None \/ ydata event = None) /\
   on_scroll event square100 = square100) /\
  (let event := mkScroll true (Some 20) None up in
   (inaxes event = false \/ xdata event = None \/ ydata event = None) /\
   on_scroll event square100 = square100).
Proof.
  cbv zeta. split; [| split].
  - assert (H : inaxes (mkScroll false (Some 20) (Some 20) up) = false
                \/ xdata (mkScroll false (Some 20) (Some 20) up) = None
                \/ ydata (mkScroll false (Some 20) (Some 20) up) = None)
      by (left; reflexivity).
    split; [exact H | exact (proj1 (on_scroll_ignored _ square100 H))].
  - assert (H : inaxes (mkScroll true None (Some 20) down) = false
                \/ xdata (mkScroll true None (Some 20) down) = None
                \/ ydata (mkScroll true None (Some 20) down) = None)
      by (right; left; reflexivity).
    split; [exact H | exact (proj1 (on_scroll_ignored _ square100 H))].
  - assert (H : inaxes (mkScroll true (Some 20) None up) = false
                \/ xdata (mkScroll true (Some 20) None up) = None
                \/ ydata (mkScroll true (Some 20) None up) = None)
      by (right; right; reflexivity).
    split; [exact H | exact (proj1 (on_scroll_ignored _ square100 H))].
Defined.

(** ** Loading *)

Module LoaderFacts.
Import Loader.

Lemma in_when (b : bool) (m m' : message) :
  In m' (when b m) <-> b = true /\ m' = m.
Proof.
  destruct b; cbn.
  - split; [intros [E | []]; auto | intros [_ E]; auto].
  - split; [intros [] | intros [E _]; discriminate E].
Qed.

(** C9, as stated, fails for the sensors: an empty sensor layer is reported
    with a warning of its own, the same way an empty wall layer is. *)
Lemma empty_sensor_layer_warns :
  let r := read_sensor_data header_only "sensors.xlsx" in
  (exists sensor_data, snd r = Some sensor_data /\ size sensor_data = 0%nat) /\
  fst r = [warn_sensor_empty] /\
  fst r <> [].
Proof.
  cbv zeta. split; [| split].
  - eexists. split; reflexivity.
  - reflexivity.
  - discriminate.
Qed.

(** What the loader returns and prints when the sheets can be read, and
    what it does on the sensors. *)
Lemma loader_only_warns :
  forall (cell : Type) (read_excel : string -> string -> read_outcome (DataFrame cell))
         (file_path : string),
    (forall df_wall df_slab1 : DataFrame cell,
        read_excel file_path "wall"%string = Frame df_wall ->
        read_excel file_path "slab1"%string = Frame df_slab1 ->
        let r := read_excel_data read_excel file_path in
        let wall_data := iloc 1 2 6 df_wall in
        let slab1_data := iloc 2 2 6 df_slab1 in
        snd r = (Some wall_data, Some slab1_data, None) /\
        main_draws (Some wall_data) (Some slab1_data) = true /\
        (In warn_wall_empty (fst r) <-> size wall_data = 0%nat) /\
        (In warn_slab_empty (fst r) <-> size slab1_data = 0%nat) /\
        (forall m, In m (fst r) -> m = warn_wall_empty \/ m = warn_slab_empty)) /\
    snd (snd (read_excel_data read_excel file_path)) = None /\
    (forall df_sensor : DataFrame cell,
        read_excel file_path "Sheet1"%string = Frame df_sensor ->
        let r := read_sensor_data read_excel file_path in
        let sensor_data := iloc 1 3 5 df_sensor in
        snd r = Some sensor_data /\
        (In warn_sensor_empty (fst r) <-> size sensor_data = 0%nat) /\
        (forall m, In m (fst r) -> m = warn_sensor_empty)) /\
    (read_excel file_path "Sheet1"%string = RaiseFileNotFound ->
     read_sensor_data read_excel file_path
     = ([error_sensor_file_not_found file_path], None)) /\
    (forall e,
        read_excel file_path "Sheet1"%string = RaiseException e ->
        read_sensor_data read_excel file_path
        = ([error_sensor_reading e], None)).
Proof.
  intros cell read_excel file_path.
  split; [| split; [| split; [| split]]].
  - intros df_wall df_slab1 Ew Es. cbv zeta.
    unfold read_excel_data. rewrite Ew, Es. cbn [fst snd].
    split; [reflexivity |]. split; [reflexivity |].
    split; [| split].
    + rewrite in_app_iff, !in_when, <- Nat.eqb_eq. split.
      * intros [[E _] | [_ E]]; [exact E | discriminate E].
      * intro E. left. split; [exact E | reflexivity].
    + rewrite in_app_iff, !in_when, <- Nat.eqb_eq. split.
      * intros [[_ E] | [E _]]; [discriminate E | exact E].
      * intro E. right. split; [exact E | reflexivity].
    + intros m. rewrite in_app_iff, !in_when. intros [[_ E] | [_ E]]; auto.
  - unfold read_excel_data.
    destruct (read_excel file_path "wall"%string);
      [destruct (read_excel file_path "slab1"%string) | |]; reflexivity.
  - intros df_sensor E. cbv zeta. unfold read_sensor_data. rewrite E.
    cbn [fst snd]. split; [reflexivity |]. split.
    + rewrite in_when, <- Nat.eqb_eq. split; [intros [H _]; exact H | auto].
    + intros m. rewrite in_when. intros [_ H]; exact H.
  - intro E. unfold read_sensor_data. rewrite E. reflexivity.
  - intros e E. unfold read_sensor_data. rewrite E. reflexivity.
Qed.

End LoaderFacts.

(** ** How the navigation calls compose *)

(** The ends of the interval the wheel zoom computes: the distance from the
    cursor to each end is the old one times the factor. *)
Lemma anchored_ends (lo hi a f : Q) :
  lo < hi ->
  let new_width := (hi - lo) * f in
  let r := (hi - a) / (hi - lo) in
  a - new_width * (1 - r) == a - f * (a - lo) /\
  a + new_width * r == a + f * (hi - a).
Proof. intro P. cbv zeta. split; field; lra. Qed.

Lemma scroll_zoom_ends_x x y f self :
  positive (ax_xlim self) ->
  lim_eq (ax_xlim (scroll_zoom x y f self))
         (x - f * (x - fst (ax_xlim self)), x + f * (snd (ax_xlim self) - x)).
Proof. destruct self as [[lo hi] ? ? ? ? ? ?]. apply anchored_ends. Qed.

Lemma scroll_zoom_ends_y x y f self :
  positive (ax_ylim self) ->
  lim_eq (ax_ylim (scroll_zoom x y f self))
         (y - f * (y - fst (ax_ylim self)), y + f * (snd (ax_ylim self) - y)).
Proof. destruct self as [? [lo hi] ? ? ? ? ?]. apply anchored_ends. Qed.

Lemma anchored_inside (lo hi a f : Q) :
  0 <= f -> lo <= a <= hi ->
  a - f * (a - lo) <= a /\ a <= a + f * (hi - a).
Proof.
  intros F [L H].
  assert (0 <= f * (a - lo)) by (apply Qmult_le_0_compat; lra).
  assert (0 <= f * (hi - a)) by (apply Qmult_le_0_compat; lra).
  split; lra.
Qed.

(** A point under the cursor that is within the current bounds is within
    the bounds after the wheel zoom, whatever the positive factor. *)
Theorem scroll_zoom_keeps_cursor_inside :
  forall (x y f : Q) (self : BuildingPlanViewer),
    positive_bounds (current self) -> 0 < f ->
    inside (ax_xlim self) x -> inside (ax_ylim self) y ->
    inside (ax_xlim (scroll_zoom x y f self)) x /\
    inside (ax_ylim (scroll_zoom x y f self)) y.
Proof.
  intros x y f self [Px Py] F Ix Iy.
  destruct (scroll_zoom_ends_x x y f _ Px) as [A1 A2].
  destruct (scroll_zoom_ends_y x y f _ Py) as [B1 B2].
  cbn [fst snd] in *. unfold inside.
  rewrite A1, A2, B1, B2.
  split; apply anchored_inside; try assumption; lra.
Qed.

Lemma scroll_zoom_keeps_cursor_inside_witness :
  positive_bounds (current square100) /\ 0 < 7 /\
  inside (ax_xlim square100) 20 /\ inside (ax_ylim square100) 100 /\
  inside (ax_xlim (scroll_zoom 20 100 7 square100)) 20.
Proof.
  assert (P : positive_bounds (current square100)) by (split; reflexivity).
  assert (F : 0 < 7) by reflexivity.
  assert (Ix : inside (ax_xlim square100) 20) by (split; discriminate).
  assert (Iy : inside (ax_ylim square100) 100) by (split; discriminate).
  repeat (split; [assumption |]).
  exact (proj1 (scroll_zoom_keeps_cursor_inside 20 100 7 square100 P F Ix Iy)).
Defined.

(** ** The keys *)

Lemma existsb_known_false (key : string) :
  existsb (String.eqb key) known_keys = false ->
  on_key_press key = fun self => self.
Proof.
  unfold known_keys. cbn [existsb]. intro H.
  repeat (apply orb_false_elim in H; destruct H as [?E H]).
  unfold on_key_press. rewrite E, E0, E1, E2, E3, E4, E5, E6, E7. reflexivity.
Qed.

(** A key press leaves the viewer exactly as it was, with no redraw, when
    the key is none of "r", "R", "+", "=", "-", "up", "down", "left" and
    "right"; the keys are told apart by case. *)
Theorem unbound_key_is_ignored :
  forall (key : string) (self : BuildingPlanViewer),
    ~ In key known_keys ->
    on_key_press key self = self.
Proof.
  intros key self N.
  rewrite existsb_known_false; [reflexivity |].
  destruct (existsb (String.eqb key) known_keys) eqn:E; [| reflexivity].
  apply existsb_exists in E. destruct E as (k & I & K).
  apply String.eqb_eq in K. subst k. contradiction.
Qed.

Lemma unbound_key_is_ignored_witness :
  ~ In "UP"%string known_keys /\ on_key_press "UP" square100 = square100.
Proof.
  assert (N : ~ In "UP"%string known_keys).
  { cbn. intros H.
    repeat (destruct H as [H | H]; [discriminate H |]). exact H. }
  split; [exact N | exact (unbound_key_is_ignored "UP" square100 N)].
Defined.

(** ** Redraws and the fields navigation leaves alone *)

Lemma exec_scales (c : call) (self : BuildingPlanViewer) :
  base_scale (exec c self) = base_scale self /\
  current_scale (exec c self) = current_scale self.
Proof.
  destruct c as [event | key | f | dx dy |]; cbn [exec];
    try (split; reflexivity).
  - unfold on_scroll.
    destruct (inaxes event), (xdata event), (ydata event); split; reflexivity.
  - destruct (on_key_press_cases key self)
      as [E | [E | [E | [(dx & dy & E) | E]]]]; rewrite E; split; reflexivity.
Qed.

(** The fields [base_scale] and [current_scale] are 1 in every viewer the
    constructor builds and stay 1 through every sequence of calls: they do
    not follow the zoom. *)
Theorem scale_fields_stay_one :
  forall (fit_xlim fit_ylim : lim) (initial_center : option (Q * Q))
         (initial_zoom : Q) (cs : list call),
    let self := run cs (setup_plot fit_xlim fit_ylim initial_center initial_zoom) in
    base_scale self = 1 /\ current_scale self = 1.
Proof.
  intros fx fy c z cs. cbv zeta.
  assert (I : base_scale (setup_plot fx fy c z) = 1
              /\ current_scale (setup_plot fx fy c z) = 1).
  { destruct c as [[cx cy] |]; split; reflexivity. }
  revert I. generalize (setup_plot fx fy c z).
  induction cs as [| c' cs IH]; intros self I; cbn [run fold_left].
  - exact I.
  - apply IH. destruct (exec_scales c' self) as [B C].
    rewrite B, C. exact I.
Qed.

(** Whatever calls came before, also zooms by factors that are not
    positive, [reset_view] gives bounds of positive width and height when
    the home bounds have them. *)
Theorem reset_view_repairs :
  forall (cs : list call) (self : BuildingPlanViewer),
    positive_bounds (home self) ->
    valid (reset_view (run cs self)).
Proof.
  intros cs self H.
  assert (E : home (run cs self) = home self) by apply run_home.
  split.
  - change (positive_bounds (home (run cs self))). rewrite E. exact H.
  - rewrite reset_view_home, E. exact H.
Qed.

Lemma reset_view_repairs_witness :
  positive_bounds (home square100) /\
  ~ positive_bounds (current (run [Zoom (-1); Pan 0.1 0] square100)) /\
  valid (reset_view (run [Zoom (-1); Pan 0.1 0] square100)).
Proof.
  assert (H : positive_bounds (home square100)) by (split; reflexivity).
  split; [exact H | split].
  - intros [P _]. vm_compute in P. discriminate P.
  - exact (reset_view_repairs [Zoom (-1); Pan 0.1 0] square100 H).
Defined.

(** ** The first view *)

(** Without a centre the zoom level has no effect: the viewer shows the
    fitted limits, they are its home, and a reset after any calls returns to
    them. *)
Theorem zoom_level_needs_a_centre :
  forall (fit_xlim fit_ylim : lim) (initial_zoom initial_zoom' : Q)
         (cs : list call),
    let self := setup_plot fit_xlim fit_ylim None initial_zoom in
    self = setup_plot fit_xlim fit_ylim None initial_zoom' /\
    current self = (fit_xlim, fit_ylim) /\
    current (reset_view (run cs self)) = (fit_xlim, fit_ylim).
Proof.
  intros fx fy z z' cs. cbv zeta.
  split; [reflexivity | split; [reflexivity |]].
  change (home (run cs (setup_plot fx fy None z)) = (fx, fy)).
  rewrite run_home. reflexivity.
Qed.

(** ** The tables the loader returns *)

Module TableFacts.
Import Loader Drawing.

Lemma iloc_rows {cell : Type} (r lo hi : nat) (df : DataFrame cell) :
  List.length (array_rows (iloc r lo hi df))
  = (List.length (frame_rows df) - r)%nat.
Proof. unfold iloc; cbn. rewrite length_map, length_skipn. reflexivity. Qed.

Lemma Forall_skipn {A : Type} (P : A -> Prop) (n : nat) (l : list A) :
  Forall P l -> Forall P (skipn n l).
Proof.
  revert l. induction n as [| n IH]; intros l H; [exact H |].
  destruct H as [| a l Ha Hl]; [constructor | cbn; apply IH, Hl].
Qed.

Lemma iloc_rectangular (r lo hi : nat) (df : DataFrame Q) :
  rectangular_frame df -> rectangular (iloc r lo hi df).
Proof.
  intro W. unfold rectangular, rectangular_frame, iloc in *; cbn.
  apply Forall_map. apply Forall_skipn with (n := r) in W.
  eapply Forall_impl; [| exact W].
  intros row E. cbn in E. rewrite length_firstn, length_skipn, E. lia.
Qed.

(** The slice [df.iloc[r:, lo:hi].values] of a rectangular frame is a
    rectangular array: it has the rows of the frame but the first [r], and
    in every row the columns from [lo] up to, not including, [hi] that the
    frame has. *)
Theorem iloc_shape :
  forall (r lo hi : nat) (df : DataFrame Q),
    rectangular_frame df ->
    let a := iloc r lo hi df in
    rectangular a /\
    List.length (array_rows a) = (List.length (frame_rows df) - r)%nat /\
    array_columns a = (Nat.min hi (n_columns df) - lo)%nat.
Proof.
  intros r lo hi df W. cbv zeta.
  split; [apply iloc_rectangular, W | split; [apply iloc_rows | reflexivity]].
Qed.

Lemma iloc_shape_witness :
  let df := mkFrame 3 [[1; 2; 3]; [4; 5; 6]] in
  rectangular_frame df /\
  rectangular (iloc 1 2 6 df) /\
  array_columns (iloc 1 2 6 df) = 1%nat.
Proof.
  cbv zeta.
  assert (W : rectangular_frame (mkFrame 3 [[1; 2; 3]; [4; 5; 6]])).
  { repeat constructor. }
  destruct (iloc_shape 1 2 6 _ W) as (R & _ & C).
  split; [exact W | split; [exact R | exact C]].
Defined.

Lemma size_iloc_zero {cell : Type} (r lo hi : nat) (df : DataFrame cell) :
  size (iloc r lo hi df) = 0%nat <->
  (List.length (frame_rows df) <= r)%nat \/ (Nat.min hi (n_columns df) <= lo)%nat.
Proof.
  unfold size. rewrite iloc_rows. cbn [iloc array_columns]. nia.
Qed.

(** When both sheets can be read, the wall warning is printed exactly when
    the wall sheet has at most one row or at most two columns, and the slab
    warning exactly when the slab sheet has at most two rows or at most two
    columns. *)
Theorem empty_warnings_criterion :
  forall (cell : Type) (read_excel : string -> string -> read_outcome (DataFrame cell))
         (file_path : string) (df_wall df_slab1 : DataFrame cell),
    read_excel file_path "wall"%string = Frame df_wall ->
    read_excel file_path "slab1"%string = Frame df_slab1 ->
    let printed := fst (read_excel_data read_excel file_path) in
    (In warn_wall_empty printed <->
     (List.length (frame_rows df_wall) <= 1)%nat \/ (n_columns df_wall <= 2)%nat) /\
    (In warn_slab_empty printed <->
     (List.length (frame_rows df_slab1) <= 2)%nat \/ (n_columns df_slab1 <= 2)%nat).
Proof.
  intros cell read_excel file_path df_wall df_slab1 Ew Es. cbv zeta.
  unfold read_excel_data. rewrite Ew, Es. cbn [fst].
  rewrite !in_app_iff, !LoaderFacts.in_when, !Nat.eqb_eq, !size_iloc_zero.
  split; split.
  - intros [[H _] | [_ H]]; [lia | discriminate H].
  - intro H. left. split; [lia | reflexivity].
  - intros [[_ H] | [H _]]; [discriminate H | lia].
  - intro H. right. split; [lia | reflexivity].
Qed.

Lemma empty_warnings_criterion_witness :
  header_only "plan.xlsx" "wall" = Frame (mkFrame 5 [["id"; "name"; "kind"; "x"; "y"]]%string) /\
  header_only "plan.xlsx" "slab1" = Frame (mkFrame 5 [["id"; "name"; "kind"; "x"; "y"]]%string) /\
  In warn_slab_empty (fst (read_excel_data header_only "plan.xlsx")).
Proof.
  split; [reflexivity | split; [reflexivity |]].
  apply (proj2 (empty_warnings_criterion string header_only "plan.xlsx"
                  _ _ eq_refl eq_refl)).
  left. cbn. lia.
Defined.

(** [read_excel_data] gives the wall and slab arrays together or none of
    them: when either sheet cannot be read all three results are [None] and
    exactly one error line is printed, so wall data that was read is
    dropped; otherwise both arrays are returned and no error line is
    printed.  The stair data is [None] in both cases. *)
Theorem read_excel_data_all_or_nothing :
  forall (cell : Type) (read_excel : string -> string -> read_outcome (DataFrame cell))
         (file_path : string),
    let r := read_excel_data read_excel file_path in
    ((exists df_wall df_slab1,
         read_excel file_path "wall"%string = Frame df_wall /\
         read_excel file_path "slab1"%string = Frame df_slab1 /\
         snd r = (Some (iloc 1 2 6 df_wall), Some (iloc 2 2 6 df_slab1), None)) /\
     (forall m, In m (fst r) -> m = warn_wall_empty \/ m = warn_slab_empty)) \/
    ((forall df_wall df_slab1,
         read_excel file_path "wall"%string = Frame df_wall ->
         read_excel file_path "slab1"%string = Frame df_slab1 -> False) /\
     snd r = (None, None, None) /\
     (fst r = [error_file_not_found file_path] \/
      exists e, fst r = [error_reading e])).
Proof.
  intros cell read_excel file_path. cbv zeta. unfold read_excel_data.
  destruct (read_excel file_path "wall"%string) as [dfw | | e] eqn:Ew.
  - destruct (read_excel file_path "slab1"%string) as [dfs | | e] eqn:Es.
    + left. split; [do 2 eexists; repeat split; reflexivity |].
      intros m. cbn [fst]. rewrite in_app_iff, !LoaderFacts.in_when.
      intros [[_ E] | [_ E]]; auto.
    + right. split; [intros ? ? _ H; discriminate H |].
      split; [reflexivity | left; reflexivity].
    + right. split; [intros ? ? _ H; discriminate H |].
      split; [reflexivity | right; eexists; reflexivity].
  - right. split; [intros ? ? H _; discriminate H |].
    split; [reflexivity | left; reflexivity].
  - right. split; [intros ? ? H _; discriminate H |].
    split; [reflexivity | right; eexists; reflexivity].
Qed.

(** A workbook whose wall sheet can be read and whose slab sheet cannot. *)
Lemma read_excel_data_all_or_nothing_witness :
  let book (file_path sheet_name : string) :=
    if (sheet_name =? "wall")%string
    then Frame (mkFrame 6 [[0; 0; 0; 1; 0; 1]; [0; 0; 2; 3; 2; 3]])
    else RaiseException "no such sheet" in
  book "plan.xlsx"%string "wall"%string
  = Frame (mkFrame 6 [[0; 0; 0; 1; 0; 1]; [0; 0; 2; 3; 2; 3]]) /\
  snd (read_excel_data book "plan.xlsx") = (None, None, None).
Proof.
  cbv zeta. split; [reflexivity |].
  destruct (read_excel_data_all_or_nothing Q
              (fun _ sheet_name : string =>
                 if (sheet_name =? "wall")%string
                 then Frame (mkFrame 6 [[0; 0; 0; 1; 0; 1]; [0; 0; 2; 3; 2; 3]])
                 else RaiseException "no such sheet")
              "plan.xlsx")
    as [[(dfw & dfs & _ & E & _) _] | (_ & E & _)].
  - discriminate E.
  - exact E.
Defined.

End TableFacts.

(** ** Drawing *)

Module DrawingFacts.
Import Loader Drawing.

Lemma unpack4_four (row : list Q) :
  List.length row = 4%nat ->
  unpack4 row = Returned (nth 0 row 0, nth 1 row 0, nth 2 row 0, nth 3 row 0).
Proof.
  destruct row as [| a [| b [| c [| d [| e row]]]]]; intro H;
    try discriminate H; reflexivity.
Qed.

Lemma unpack4_other (row : list Q) :
  List.length row <> 4%nat -> unpack4 row = Raised ValueError.
Proof.
  destruct row as [| a [| b [| c [| d [| e row]]]]]; intro H;
    try reflexivity; contradiction H; reflexivity.
Qed.

Lemma add_patches_returns (k : layer) (rows : list (list Q)) :
  Forall (fun row => List.length row = 4%nat) rows ->
  forall drawn,
    add_patches k rows drawn = Returned (drawn ++ map (patch_of k) rows).
Proof.
  induction 1 as [| row rows H _ IH]; intro drawn; cbn [add_patches map].
  - rewrite app_nil_r. reflexivity.
  - rewrite (unpack4_four row H), IH, <- app_assoc. reflexivity.
Qed.

Lemma add_patches_raises (k : layer) (rows : list (list Q)) :
  Exists (fun row => List.length row <> 4%nat) rows ->
  forall drawn, add_patches k rows drawn = Raised ValueError.
Proof.
  induction rows as [| row rows IH]; intros E drawn.
  - inversion E.
  - cbn [add_patches].
    destruct (Nat.eq_dec (List.length row) 4) as [H | H].
    + rewrite (unpack4_four row H). apply IH.
      inversion E as [? ? N | ? ? T]; subst; [contradiction | exact T].
    + rewrite (unpack4_other row H). reflexivity.
Qed.

(** A loop of [setup_plot] over rows that all hold four numbers adds one
    rectangle per row, in the order of the rows, after those already drawn;
    if some row does not hold four numbers it raises [ValueError]. *)
Theorem add_patches_rows :
  forall (k : layer) (rows : list (list Q)) (drawn : list Rectangle),
    (Forall (fun row => List.length row = 4%nat) rows ->
     add_patches k rows drawn = Returned (drawn ++ map (patch_of k) rows)) /\
    (Exists (fun row => List.length row <> 4%nat) rows ->
     add_patches k rows drawn = Raised ValueError).
Proof.
  intros k rows drawn. split; intro H.
  - apply add_patches_returns, H.
  - apply add_patches_raises, H.
Qed.

Lemma add_patches_rows_witness :
  Forall (fun row : list Q => List.length row = 4%nat) [[0; 4; 1; 3]; [2; 2; 5; 9]] /\
  add_patches wall_layer [[0; 4; 1; 3]; [2; 2; 5; 9]] []
  = Returned [patch_of wall_layer [0; 4; 1; 3]; patch_of wall_layer [2; 2; 5; 9]] /\
  Exists (fun row : list Q => List.length row <> 4%nat) [[0; 4; 1; 3]; [2; 2]] /\
  add_patches wall_layer [[0; 4; 1; 3]; [2; 2]] [] = Raised ValueError.
Proof.
  assert (F : Forall (fun row : list Q => List.length row = 4%nat)
                [[0; 4; 1; 3]; [2; 2; 5; 9]]) by (repeat constructor).
  assert (E : Exists (fun row : list Q => List.length row <> 4%nat)
                [[0; 4; 1; 3]; [2; 2]]).
  { apply Exists_cons_tl, Exists_cons_hd. discriminate. }
  split; [exact F | split; [| split; [exact E |]]].
  - exact (proj1 (add_patches_rows wall_layer _ []) F).
  - exact (proj2 (add_patches_rows wall_layer _ []) E).
Defined.

Lemma present_rows (a : ndarray Q) :
  present (Some a) = false <-> array_rows a = [].
Proof.
  unfold present. destruct (array_rows a); cbn; split; intro H;
    try reflexivity; discriminate H.
Qed.

Lemma draw_layers_returns :
  forall (wall_data slab1_data : ndarray Q) (stair_data sensor_data : option (ndarray Q)),
    let stair_rows :=
      match stair_data with Some a => array_rows a | None => [] end in
    Forall (fun row => List.length row = 4%nat) (array_rows slab1_data) ->
    Forall (fun row => List.length row = 4%nat) (array_rows wall_data) ->
    Forall (fun row => List.length row = 4%nat) stair_rows ->
    (forall a, sensor_data = Some a -> array_rows a <> [] ->
               (2 <= array_columns a)%nat) ->
    draw_layers (Some wall_data) (Some slab1_data) stair_data sensor_data
    = Returned
        (mkAxes
           (map (patch_of slab_layer) (array_rows slab1_data)
            ++ map (patch_of wall_layer) (array_rows wall_data)
            ++ map (patch_of stair_layer) stair_rows)
           (match sensor_data with
            | Some a =>
                if present sensor_data
                then Some (map (fun row => nth 0 row 0) (array_rows a),
                           map (fun row => nth 1 row 0) (array_rows a))
                else None
            | None => None
            end)
           ([legend_slab; legend_wall]
            ++ if present sensor_data then [legend_sensor] else [])).
Proof.
  intros wall slab stair sensor stair_rows Fs Fw Ft Hs.
  unfold draw_layers. cbn [rows_of bind].
  rewrite (add_patches_returns slab_layer _ Fs). cbn [bind app].
  rewrite (add_patches_returns wall_layer _ Fw). cbn [bind].
  assert (St : (if present stair
                then bind (rows_of stair)
                       (fun stair_rows0 =>
                          add_patches stair_layer stair_rows0
                            (map (patch_of slab_layer) (array_rows slab)
                             ++ map (patch_of wall_layer) (array_rows wall)))
                else Returned
                       (map (patch_of slab_layer) (array_rows slab)
                        ++ map (patch_of wall_layer) (array_rows wall)))
               = Returned
                   (map (patch_of slab_layer) (array_rows slab)
                    ++ map (patch_of wall_layer) (array_rows wall)
                    ++ map (patch_of stair_layer) stair_rows)).
  { subst stair_rows. destruct stair as [a |]; cbn [present].
    - destruct (0 <? List.length (array_rows a))%nat eqn:E.
      + cbn [rows_of bind]. rewrite (add_patches_returns stair_layer _ Ft).
        rewrite <- app_assoc. reflexivity.
      + apply Nat.ltb_ge in E. destruct (array_rows a); [| cbn in E; lia].
        cbn [map]. rewrite !app_nil_r. reflexivity.
    - cbn [map]. rewrite !app_nil_r. reflexivity. }
  rewrite St. cbn [bind].
  destruct sensor as [a |]; [| reflexivity].
  destruct (present (Some a)) eqn:P; [| reflexivity].
  unfold columns01.
  assert (C : (2 <= array_columns a)%nat).
  { apply (Hs a eq_refl). intro N. apply present_rows in N. congruence. }
  apply Nat.leb_le in C. rewrite C. reflexivity.
Qed.

(** With wall and slab arrays whose rows hold four numbers each, stair rows
    (if stairs are given) that do too, and sensors that are absent, without
    rows, or of at least two columns, the drawing returns: the patches are
    those of the slabs, then those of the walls, then those of the stairs,
    one per row and in the order of the rows; the sensors are scattered and
    listed in the legend exactly when they are given with at least one row;
    the legend never lists the stairs. *)
Theorem draw_layers_order :
  forall (wall_data slab1_data : ndarray Q) (stair_data sensor_data : option (ndarray Q)),
    let stair_rows :=
      match stair_data with Some a => array_rows a | None => [] end in
    Forall (fun row => List.length row = 4%nat) (array_rows slab1_data) ->
    Forall (fun row => List.length row = 4%nat) (array_rows wall_data) ->
    Forall (fun row => List.length row = 4%nat) stair_rows ->
    (forall a, sensor_data = Some a -> array_rows a <> [] ->
               (2 <= array_columns a)%nat) ->
    draw_layers (Some wall_data) (Some slab1_data) stair_data sensor_data
    = Returned
        (mkAxes
           (map (patch_of slab_layer) (array_rows slab1_data)
            ++ map (patch_of wall_layer) (array_rows wall_data)
            ++ map (patch_of stair_layer) stair_rows)
           (match sensor_data with
            | Some a =>
                if present sensor_data
                then Some (map (fun row => nth 0 row 0) (array_rows a),
                           map (fun row => nth 1 row 0) (array_rows a))
                else None
            | None => None
            end)
           ([legend_slab; legend_wall]
            ++ if present sensor_data then [legend_sensor] else [])).
Proof.
  intros wall slab stair sensor stair_rows. apply draw_layers_returns.
Qed.

Lemma draw_layers_order_witness :
  let wall := mkArray 4 [[0; 4; 0; 1]] in
  let slab := mkArray 4 [[0; 4; 0; 4]; [4; 8; 0; 4]] in
  let sensor := mkArray 2 [[1; 1]; [7; 3]] in
  exists ax,
    draw_layers (Some wall) (Some slab) None (Some sensor) = Returned ax /\
    map rect_layer (patches ax) = [slab_layer; slab_layer; wall_layer] /\
    scatter ax = Some ([1; 7], [1; 3]) /\
    legend ax = [legend_slab; legend_wall; legend_sensor].
Proof.
  cbv zeta. eexists. split.
  - apply (draw_layers_order (mkArray 4 [[0; 4; 0; 1]])
             (mkArray 4 [[0; 4; 0; 4]; [4; 8; 0; 4]]) None
             (Some (mkArray 2 [[1; 1]; [7; 3]]))).
    + repeat constructor.
    + repeat constructor.
    + constructor.
    + intros a E _. injection E as <-. cbn. lia.
  - repeat split; reflexivity.
Defined.

(** What makes the drawing raise.  A slab array that is [None] raises
    [TypeError], and so does a wall array that is [None] once the slabs are
    drawn; a slab row that does not hold four numbers raises [ValueError]
    whatever the other layers are; sensors with a row but fewer than two
    columns raise [IndexError] once the rectangles are drawn. *)
Theorem draw_layers_raises :
  forall (wall_data slab1_data stair_data sensor_data : option (ndarray Q)),
    (slab1_data = None ->
     draw_layers wall_data slab1_data stair_data sensor_data = Raised TypeError) /\
    (forall slab, slab1_data = Some slab ->
       Exists (fun row => List.length row <> 4%nat) (array_rows slab) ->
       draw_layers wall_data slab1_data stair_data sensor_data = Raised ValueError) /\
    (forall slab, slab1_data = Some slab ->
       Forall (fun row => List.length row = 4%nat) (array_rows slab) ->
       wall_data = None ->
       draw_layers wall_data slab1_data stair_data sensor_data = Raised TypeError) /\
    (forall slab wall a, slab1_data = Some slab -> wall_data = Some wall ->
       Forall (fun row => List.length row = 4%nat) (array_rows slab) ->
       Forall (fun row => List.length row = 4%nat) (array_rows wall) ->
       present stair_data = false ->
       sensor_data = Some a -> array_rows a <> [] ->
       (array_columns a < 2)%nat ->
       draw_layers wall_data slab1_data stair_data sensor_data = Raised IndexError).
Proof.
  intros wall_data slab1_data stair_data sensor_data.
  split; [| split; [| split]].
  - intros ->. reflexivity.
  - intros slab -> E. unfold draw_layers. cbn [rows_of bind].
    rewrite (add_patches_raises slab_layer _ E). reflexivity.
  - intros slab -> F ->. unfold draw_layers. cbn [rows_of bind].
    rewrite (add_patches_returns slab_layer _ F). reflexivity.
  - intros slab wall a -> -> Fs Fw St -> R C.
    unfold draw_layers. cbn [rows_of bind].
    rewrite (add_patches_returns slab_layer _ Fs). cbn [bind app].
    rewrite (add_patches_returns wall_layer _ Fw). cbn [bind].
    rewrite St. cbn [bind].
    destruct (present (Some a)) eqn:P.
    + unfold columns01. apply Nat.ltb_lt in C.
      rewrite Nat.leb_antisym, C. reflexivity.
    + apply present_rows in P. contradiction.
Qed.

Lemma draw_layers_raises_witness :
  let slab := mkArray 4 [[0; 4; 0; 4]] in
  let wall := mkArray 4 [[0; 4; 0; 1]] in
  let sensor := mkArray 1 [[7]] in
  draw_layers None (Some (mkArray 2 [[0; 4]])) None None = Raised ValueError /\
  draw_layers None (Some slab) None None = Raised TypeError /\
  draw_layers (Some wall) (Some slab) None (Some sensor) = Raised IndexError.
Proof.
  cbv zeta. split; [| split].
  - destruct (draw_layers_raises None (Some (mkArray 2 [[0; 4]])) None None)
      as (_ & H & _).
    apply (H (mkArray 2 [[0; 4]]) eq_refl).
    apply Exists_cons_hd. discriminate.
  - destruct (draw_layers_raises None (Some (mkArray 4 [[0; 4; 0; 4]])) None None)
      as (_ & _ & H & _).
    apply (H (mkArray 4 [[0; 4; 0; 4]]) eq_refl); [repeat constructor | reflexivity].
  - destruct (draw_layers_raises (Some (mkArray 4 [[0; 4; 0; 1]]))
                (Some (mkArray 4 [[0; 4; 0; 4]])) None (Some (mkArray 1 [[7]])))
      as (_ & _ & _ & H).
    apply (H (mkArray 4 [[0; 4; 0; 4]]) (mkArray 4 [[0; 4; 0; 1]])
             (mkArray 1 [[7]]) eq_refl eq_refl).
    + repeat constructor.
    + repeat constructor.
    + reflexivity.
    + reflexivity.
    + discriminate.
    + cbn. lia.
Defined.

Lemma iloc_rows_four (r : nat) (df : DataFrame Q) :
  rectangular_frame df -> (6 <= n_columns df)%nat ->
  Forall (fun row => List.length row = 4%nat) (array_rows (iloc r 2 6 df)).
Proof.
  intros W C. pose proof (TableFacts.iloc_rectangular r 2 6 df W) as R.
  unfold rectangular in R. eapply Forall_impl; [| exact R].
  intros row E. cbv beta in E. rewrite E. unfold iloc; cbn [array_columns]. lia.
Qed.

Lemma iloc_rows_not_four (r : nat) (df : DataFrame Q) :
  rectangular_frame df -> (n_columns df < 6)%nat ->
  (r < List.length (frame_rows df))%nat ->
  Exists (fun row => List.length row <> 4%nat) (array_rows (iloc r 2 6 df)).
Proof.
  intros W C L. pose proof (TableFacts.iloc_rectangular r 2 6 df W) as R.
  pose proof (TableFacts.iloc_rows r 2 6 df) as N.
  unfold rectangular in R.
  destruct (array_rows (iloc r 2 6 df)) as [| row rows]; [cbn in N; lia |].
  apply Exists_cons_hd. inversion R as [| ? ? E _]; subst.
  cbv beta in E. rewrite E. unfold iloc; cbn [array_columns]. lia.
Qed.

(** What the loader cuts out of a rectangular building sheet can be drawn
    when the sheet has at least six columns, and only then if it has a row
    left: with fewer columns and a row beyond those skipped, the loop over
    the rows raises [ValueError]. *)
Theorem narrow_sheet_cannot_be_drawn :
  forall (r : nat) (df : DataFrame Q) (k : layer) (drawn : list Rectangle),
    rectangular_frame df ->
    ((6 <= n_columns df)%nat ->
     add_patches k (array_rows (iloc r 2 6 df)) drawn
     = Returned (drawn ++ map (patch_of k) (array_rows (iloc r 2 6 df))) /\
     List.length (map (patch_of k) (array_rows (iloc r 2 6 df)))
     = (List.length (frame_rows df) - r)%nat) /\
    ((n_columns df < 6)%nat -> (r < List.length (frame_rows df))%nat ->
     add_patches k (array_rows (iloc r 2 6 df)) drawn = Raised ValueError).
Proof.
  intros r df k drawn W. split.
  - intro C. split.
    + apply add_patches_returns, iloc_rows_four; assumption.
    + rewrite length_map. apply TableFacts.iloc_rows.
  - intros C L. apply add_patches_raises, iloc_rows_not_four; assumption.
Qed.

Lemma narrow_sheet_cannot_be_drawn_witness :
  let df := mkFrame 5 [[0; 0; 1; 2; 3]; [0; 0; 4; 5; 6]] in
  rectangular_frame df /\ (n_columns df < 6)%nat /\
  (1 < List.length (frame_rows df))%nat /\
  add_patches wall_layer (array_rows (iloc 1 2 6 df)) [] = Raised ValueError.
Proof.
  cbv zeta.
  assert (W : rectangular_frame (mkFrame 5 [[0; 0; 1; 2; 3]; [0; 0; 4; 5; 6]]))
    by (repeat constructor).
  assert (C : (n_columns (mkFrame 5 [[0; 0; 1; 2; 3]; [0; 0; 4; 5; 6]]) < 6)%nat)
    by (cbn; lia).
  assert (L : (1 < List.length
                     (frame_rows (mkFrame 5 [[0; 0; 1; 2; 3]; [0; 0; 4; 5; 6]])))%nat)
    by (cbn; lia).
  split; [exact W | split; [exact C | split; [exact L |]]].
  exact (proj2 (narrow_sheet_cannot_be_drawn 1 _ wall_layer [] W) C L).
Defined.

Section MainFacts.

Variable read_excel : string -> string -> read_outcome (DataFrame Q).
Variable autoscale : Axes -> Binary64.lim * Binary64.lim.

Lemma report_sensors_returns :
  sensors_usable read_excel ->
  exists lines,
    report_sensors (snd (read_sensor_data read_excel sensor_file_path))
    = (lines, Returned tt).
Proof.
  intro S. unfold read_sensor_data.
  destruct (read_excel sensor_file_path "Sheet1"%string) as [df | | e] eqn:E;
    cbn [snd report_sensors]; [| eexists; reflexivity ..].
  destruct (array_rows (iloc 1 3 5 df)) as [| row rows] eqn:R;
    [eexists; reflexivity |].
  pose proof (TableFacts.iloc_rows 1 3 5 df) as N. rewrite R in N. cbn in N.
  destruct (S df E) as [L | C]; [lia |].
  assert (A : (2 <=? array_columns (iloc 1 3 5 df))%nat = true).
  { apply Nat.leb_le. unfold iloc; cbn [array_columns]. lia. }
  rewrite A. eexists; reflexivity.
Qed.

Lemma sensors_can_be_drawn :
  sensors_usable read_excel ->
  forall a, snd (read_sensor_data read_excel sensor_file_path) = Some a ->
            array_rows a <> [] -> (2 <= array_columns a)%nat.
Proof.
  intros S a. unfold read_sensor_data.
  destruct (read_excel sensor_file_path "Sheet1"%string) as [df | | e] eqn:E;
    cbn [snd]; intro H; try discriminate H.
  injection H as <-. intro R.
  pose proof (TableFacts.iloc_rows 1 3 5 df) as N.
  destruct (S df E) as [L | C].
  - destruct (array_rows (iloc 1 3 5 df)); [contradiction | cbn in N; lia].
  - unfold iloc; cbn [array_columns]. lia.
Qed.

(** What [main] comes to when the wall and slab arrays can be drawn and the
    sensors are usable: the constructor of the viewer on the drawn axes. *)
Lemma main_reaches_the_constructor (df_wall df_slab1 : DataFrame Q) :
  read_excel building_file_path "wall"%string = Frame df_wall ->
  read_excel building_file_path "slab1"%string = Frame df_slab1 ->
  Forall (fun row => List.length row = 4%nat) (array_rows (iloc 1 2 6 df_wall)) ->
  Forall (fun row => List.length row = 4%nat) (array_rows (iloc 2 2 6 df_slab1)) ->
  sensors_usable read_excel ->
  exists ax,
    patches ax
    = map (patch_of slab_layer) (array_rows (iloc 2 2 6 df_slab1))
      ++ map (patch_of wall_layer) (array_rows (iloc 1 2 6 df_wall)) /\
    snd (main read_excel autoscale)
    = match Binary64.setup_plot (fst (autoscale ax)) (snd (autoscale ax))
              (Some (33950, 20000)%float) 0.5%float with
      | Binary64.Returned viewer => Returned (Some (ax, viewer))
      | Binary64.Raised _ => Raised ValueError
      end.
Proof.
  intros Ew Es Fw Fs S.
  destruct (report_sensors_returns S) as [lines RS].
  pose proof (sensors_can_be_drawn S) as SD.
  unfold main, read_excel_data. rewrite Ew, Es.
  destruct (read_sensor_data read_excel sensor_file_path) as [log2 sensor].
  cbn [snd] in RS, SD. rewrite RS.
  unfold draw_building_plan, new_viewer.
  rewrite (draw_layers_returns (iloc 1 2 6 df_wall) (iloc 2 2 6 df_slab1) None sensor);
    [| assumption | assumption | constructor | exact SD].
  cbn [bind].
  match goal with |- context [autoscale ?drawn] => exists drawn end.
  split.
  - cbn [patches map]. rewrite app_nil_r. reflexivity.
  - destruct (Binary64.setup_plot _ _ _ _); reflexivity.
Qed.

(** [main] shows the plan.  When the two building sheets can be read, are
    rectangular and have at least six columns, and the sensor sheet cannot
    be read, has no row after the first, or has at least five columns,
    [main] draws one rectangle per row the loader kept and builds the viewer
    about (33950, 20000) at zoom level 0.5 on the limits matplotlib fitted;
    when the constructor returns, [main] returns with that viewer, whose
    home bounds are the bounds it shows. *)
Theorem main_shows_the_plan :
  forall df_wall df_slab1 : DataFrame Q,
    read_excel building_file_path "wall"%string = Frame df_wall ->
    read_excel building_file_path "slab1"%string = Frame df_slab1 ->
    rectangular_frame df_wall -> rectangular_frame df_slab1 ->
    (6 <= n_columns df_wall)%nat -> (6 <= n_columns df_slab1)%nat ->
    sensors_usable read_excel ->
    exists ax,
      List.length (patches ax)
      = ((List.length (frame_rows df_slab1) - 2)
         + (List.length (frame_rows df_wall) - 1))%nat /\
      forall viewer,
        Binary64.setup_plot (fst (autoscale ax)) (snd (autoscale ax))
          (Some (33950, 20000)%float) 0.5%float
        = Binary64.Returned viewer ->
        snd (main read_excel autoscale) = Returned (Some (ax, viewer)) /\
        Binary64.home viewer = Binary64.current viewer.
Proof.
  intros dfw dfs Ew Es Ww Ws Cw Cs S.
  destruct (main_reaches_the_constructor dfw dfs Ew Es) as (ax & P & M);
    [apply iloc_rows_four; assumption | apply iloc_rows_four; assumption
     | exact S |].
  exists ax. split.
  - rewrite P, length_app, !length_map, !TableFacts.iloc_rows. reflexivity.
  - intros viewer V. rewrite V in M. split; [exact M |].
    unfold Binary64.setup_plot, Binary64.set_initial_view in V.
    destruct (Binary64.set_xlim _ _) as [s1 |]; [| discriminate V].
    destruct (Binary64.set_ylim _ _) as [s2 |]; [| discriminate V].
    injection V as <-. reflexivity.
Qed.

(** [main] without building data.  When a building sheet cannot be read,
    [main] never shows a viewer; and when the sensor sheet is as above it
    returns without raising, its last printed line being that the plan
    cannot be drawn. *)
Theorem main_without_building_data :
  (forall df_wall df_slab1,
      read_excel building_file_path "wall"%string = Frame df_wall ->
      read_excel building_file_path "slab1"%string = Frame df_slab1 -> False) ->
  (forall shown, snd (main read_excel autoscale) <> Returned (Some shown)) /\
  (sensors_usable read_excel ->
   snd (main read_excel autoscale) = Returned None /\
   exists printed, fst (main read_excel autoscale) = printed ++ [cannot_draw]).
Proof.
  intro N.
  assert (D : exists m, read_excel_data read_excel building_file_path
                        = ([m], (None, None, None))).
  { unfold read_excel_data.
    destruct (read_excel building_file_path "wall"%string) as [dfw | | e] eqn:Ew;
      [| eexists; reflexivity ..].
    destruct (read_excel building_file_path "slab1"%string) as [dfs | | e] eqn:Es;
      [| eexists; reflexivity ..].
    destruct (N dfw dfs eq_refl eq_refl). }
  destruct D as [m D]. unfold main. rewrite D.
  destruct (read_sensor_data read_excel sensor_file_path) as [log2 sensor] eqn:RS.
  split.
  - intros shown.
    destruct (report_sensors sensor) as [lines [[] | e]]; cbn [snd]; discriminate.
  - intro S. destruct (report_sensors_returns S) as [lines R].
    rewrite RS in R. cbn [snd] in R. rewrite R. cbn [fst snd].
    split; [reflexivity | eexists; reflexivity].
Qed.

Lemma main_raises_on_narrow_sensors (df_sensor : DataFrame Q) :
  read_excel sensor_file_path "Sheet1"%string = Frame df_sensor ->
  (1 < List.length (frame_rows df_sensor))%nat ->
  (n_columns df_sensor < 5)%nat ->
  snd (main read_excel autoscale) = Raised IndexError /\
  ~ In figure_saved (fst (main read_excel autoscale)).
Proof.
  intros E L C.
  assert (R : exists lines,
             report_sensors (Some (iloc 1 3 5 df_sensor))
             = (lines, Raised IndexError)
             /\ ~ In figure_saved lines).
  { unfold report_sensors.
    pose proof (TableFacts.iloc_rows 1 3 5 df_sensor) as N.
    destruct (array_rows (iloc 1 3 5 df_sensor)) as [| row rows];
      [cbn in N; lia |].
    assert (A : (2 <=? array_columns (iloc 1 3 5 df_sensor))%nat = false).
    { apply Nat.leb_gt. unfold iloc; cbn [array_columns]. lia. }
    rewrite A. eexists. split; [reflexivity |].
    intros [H | []]. discriminate H. }
  destruct R as (lines & R & NS).
  unfold main.
  destruct (read_excel_data read_excel building_file_path) as [log1 [[w s] st]].
  unfold read_sensor_data. rewrite E, R. cbn [fst snd].
  split; [reflexivity |].
  rewrite in_app_iff, in_map_iff. intros [(m & H & _) | H].
  - discriminate H.
  - exact (NS H).
Qed.

(** When a building array has a row that does not hold four numbers and
    the sensors are usable, [main] raises [ValueError] in the drawing. *)
Lemma main_raises_in_the_drawing (df_wall df_slab1 : DataFrame Q) :
  read_excel building_file_path "wall"%string = Frame df_wall ->
  read_excel building_file_path "slab1"%string = Frame df_slab1 ->
  sensors_usable read_excel ->
  Exists (fun row => List.length row <> 4%nat) (array_rows (iloc 2 2 6 df_slab1))
  \/ (Forall (fun row => List.length row = 4%nat) (array_rows (iloc 2 2 6 df_slab1))
      /\ Exists (fun row => List.length row <> 4%nat)
                (array_rows (iloc 1 2 6 df_wall))) ->
  snd (main read_excel autoscale) = Raised ValueError.
Proof.
  intros Ew Es S D.
  destruct (report_sensors_returns S) as [lines RS].
  unfold main, read_excel_data. rewrite Ew, Es.
  destruct (read_sensor_data read_excel sensor_file_path) as [log2 sensor].
  cbn [snd] in RS. rewrite RS.
  unfold draw_building_plan, new_viewer, draw_layers. cbn [rows_of bind].
  destruct D as [E | [F E]].
  - rewrite (add_patches_raises slab_layer _ E). reflexivity.
  - rewrite (add_patches_returns slab_layer _ F). cbn [bind app].
    rewrite (add_patches_raises wall_layer _ E). reflexivity.
Qed.

(** [main] and a narrow sensor sheet.  When the sensor sheet can be read,
    has a row after the first and fewer than five columns, [main] raises
    [IndexError] while it reports the sensors, whatever the building data
    are, and nothing is drawn or saved. *)
Theorem main_narrow_sensor_sheet :
  forall df_sensor : DataFrame Q,
    read_excel sensor_file_path "Sheet1"%string = Frame df_sensor ->
    (1 < List.length (frame_rows df_sensor))%nat ->
    (n_columns df_sensor < 5)%nat ->
    snd (main read_excel autoscale) = Raised IndexError /\
    ~ In figure_saved (fst (main read_excel autoscale)).
Proof.
  intros df E L C. apply (main_raises_on_narrow_sensors df); assumption.
Qed.

End MainFacts.

Lemma plan_book_usable : sensors_usable plan_book.
Proof. intros df E. injection E as <-. right. cbn. lia. Qed.

Lemma main_shows_the_plan_witness :
  rectangular_frame (mkFrame 6 [[0; 0; 0; 0; 0; 0]; [1; 1; 0; 4; 0; 1]]) /\
  sensors_usable plan_book /\
  exists ax viewer,
    snd (main plan_book fixed_autoscale) = Returned (Some (ax, viewer)) /\
    List.length (patches ax) = 2%nat /\
    Binary64.current viewer = ((23950, 43950), (12500, 27500))%float /\
    Binary64.home viewer = Binary64.current viewer.
Proof.
  assert (Ww : rectangular_frame
                 (mkFrame 6 [[0; 0; 0; 0; 0; 0]; [1; 1; 0; 4; 0; 1]]))
    by (repeat constructor).
  assert (Ws : rectangular_frame
                 (mkFrame 6 [[0; 0; 0; 0; 0; 0]; [0; 0; 0; 0; 0; 0];
                             [1; 1; 0; 4; 0; 4]]))
    by (repeat constructor).
  split; [exact Ww | split; [exact plan_book_usable |]].
  destruct (main_shows_the_plan plan_book fixed_autoscale _ _ eq_refl eq_refl
              Ww Ws (Nat.le_refl 6) (Nat.le_refl 6) plan_book_usable)
    as (ax & L & M).
  destruct (M (Binary64.mkViewer (23950, 43950) (12500, 27500)
                 (23950, 43950) (12500, 27500) 1 1 0)%float) as [R H].
  { vm_compute. reflexivity. }
  do 2 eexists. split; [exact R |]. split; [exact L |].
  split; [reflexivity | exact H].
Defined.

Lemma main_without_building_data_witness :
  (forall df_wall df_slab1 : DataFrame Q,
      no_book building_file_path "wall"%string = Frame df_wall ->
      no_book building_file_path "slab1"%string = Frame df_slab1 -> False) /\
  sensors_usable no_book /\
  snd (main no_book fixed_autoscale) = Returned None.
Proof.
  assert (N : forall df_wall df_slab1 : DataFrame Q,
             no_book building_file_path "wall"%string = Frame df_wall ->
             no_book building_file_path "slab1"%string = Frame df_slab1 -> False)
    by (intros ? ? H _; discriminate H).
  assert (S : sensors_usable no_book) by (intros df H; discriminate H).
  split; [exact N | split; [exact S |]].
  exact (proj1 (proj2 (main_without_building_data no_book fixed_autoscale N) S)).
Defined.

Lemma main_narrow_sensor_sheet_witness :
  narrow_sensor_book sensor_file_path "Sheet1"%string
  = Frame (mkFrame 4 [[0; 0; 0; 0]; [1; 1; 1; 2]]) /\
  snd (main narrow_sensor_book fixed_autoscale) = Raised IndexError.
Proof.
  split; [reflexivity |].
  refine (proj1 (main_narrow_sensor_sheet narrow_sensor_book fixed_autoscale
                   (mkFrame 4 [[0; 0; 0; 0]; [1; 1; 1; 2]]) eq_refl _ _));
    cbn; lia.
Defined.

End DrawingFacts.

(** ** The running viewer and the exact numbers *)










Lemma b64_on_key_press_cases (key : string) (self : Binary64.BuildingPlanViewer) :
  (existsb (String.eqb key) known_keys = true /\
   exists xlim ylim,
     Binary64.on_key_press key self
     = Binary64.set_limits_and_draw xlim ylim self) \/
  (existsb (String.eqb key) known_keys = false /\
   Binary64.on_key_press key self = Binary64.Returned self).
Proof.
  unfold Binary64.on_key_press, known_keys. cbn [existsb].
  repeat match goal with
         | |- context [(key =? ?k)%string] =>
             destruct (key =? k)%string; cbn [orb];
             [left; split; [reflexivity | do 2 eexists; reflexivity] |]
         end.
  right. split; reflexivity.
Qed.




(** ** The claims on the running viewer *)




Lemma b64_zoom_limits (f : float) (self : Binary64.BuildingPlanViewer) :
  Binary64.zoom f self
  = Binary64.set_limits_and_draw (fst (Binary64.zoom_limits f self))
                                 (snd (Binary64.zoom_limits f self)) self.
Proof. reflexivity. Qed.




(** C2, amended.  [zoom] has no rejection of its own and never looks at the
    sign of the factor.  It hands the limits it computes to matplotlib: when
    these four numbers are finite it returns, having stored what matplotlib
    makes of them, with the home bounds untouched and one redraw requested;
    when one of them is NaN or infinite matplotlib's [set_xlim] or
    [set_ylim] raises, the home bounds are untouched and no redraw is
    requested.  So a factor that is not positive is applied: on the square
    (0,100,0,100), [zoom(-1)] returns with the bounds (100,0,100,0) and
    [zoom(0)] with (47.5,52.5,47.5,52.5), matplotlib widening the collapsed
    limits; and a second [zoom(1e200)] raises.  The wheel handler takes its
    factor from the table 1/1.1, 1.1, 1, all of them positive. *)
Theorem zoom_has_no_guard :
  (forall (f : float) (self : Binary64.BuildingPlanViewer),
      let xlim := fst (Binary64.zoom_limits f self) in
      let ylim := snd (Binary64.zoom_limits f self) in
      (Binary64.rejected xlim = false -> Binary64.rejected ylim = false ->
       exists self',
         Binary64.zoom f self = Binary64.Returned self' /\
         Some (Binary64.ax_xlim self') = Binary64.set_lim (fst xlim) (snd xlim) /\
         Some (Binary64.ax_ylim self') = Binary64.set_lim (fst ylim) (snd ylim) /\
         Binary64.home self' = Binary64.home self /\
         Binary64.redraws self' = S (Binary64.redraws self)) /\
      (Binary64.rejected xlim = true \/ Binary64.rejected ylim = true ->
       exists self',
         Binary64.zoom f self = Binary64.Raised self' /\
         Binary64.ax_ylim self' = Binary64.ax_ylim self /\
         Binary64.home self' = Binary64.home self /\
         Binary64.redraws self' = Binary64.redraws self)) /\
  Binary64.zoom (-1) Binary64.square100
  = Binary64.Returned
      (Binary64.mkViewer (100, 0) (100, 0) (0, 100) (0, 100) 1 1 1)%float /\
  Binary64.zoom 0 Binary64.square100
  = Binary64.Returned
      (Binary64.mkViewer (47.5, 52.5) (47.5, 52.5) (0, 100) (0, 100) 1 1 1)%float /\
  Binary64.raised
    (Binary64.zoom 1e200
       (Binary64.state_of (Binary64.zoom 1e200 Binary64.square100))) = true /\
  (forall b : MouseButton,
      (Binary64.scroll_scale_factor b = (1 / 1.1)%float \/
       Binary64.scroll_scale_factor b = 1.1%float \/
       Binary64.scroll_scale_factor b = 1%float) /\
      (0 <? Binary64.scroll_scale_factor b)%float = true).
Proof.
  split; [| split; [| split; [| split]]].
  - intros f self. cbv zeta.
    rewrite b64_zoom_limits.
    destruct (Binary64.zoom_limits f self) as [xlim ylim]. cbn [fst snd].
    unfold Binary64.rejected, Binary64.set_limits_and_draw,
      Binary64.set_xlim, Binary64.set_ylim, Binary64.set_lim.
    destruct (is_finite (fst xlim) && is_finite (snd xlim));
      destruct (is_finite (fst ylim) && is_finite (snd ylim)); cbn [negb].
    + split; [intros _ _ | intros [H | H]; discriminate H].
      destruct (Binary64.nonsingular (fst xlim) (snd xlim)) as [x0 x1].
      destruct (Binary64.nonsingular (fst ylim) (snd ylim)) as [y0 y1].
      eexists. split; [reflexivity |]. repeat split; reflexivity.
    + split; [intros _ H; discriminate H | intros _].
      destruct (Binary64.nonsingular (fst xlim) (snd xlim)) as [x0 x1].
      eexists. split; [reflexivity |]. repeat split; reflexivity.
    + split; [intros H; discriminate H | intros _].
      eexists. split; [reflexivity |]. repeat split; reflexivity.
    + split; [intros H; discriminate H | intros _].
      eexists. split; [reflexivity |]. repeat split; reflexivity.
  - vm_compute. reflexivity.
  - vm_compute. reflexivity.
  - vm_compute. reflexivity.
  - intro b. destruct b; (split; [| vm_compute; reflexivity]);
      [left | right; left | right; right]; reflexivity.
Qed.

Lemma zoom_has_no_guard_witness :
  Binary64.rejected (fst (Binary64.zoom_limits (-1) Binary64.square100)) = false /\
  Binary64.rejected (snd (Binary64.zoom_limits (-1) Binary64.square100)) = false /\
  exists self',
    Binary64.zoom (-1) Binary64.square100 = Binary64.Returned self' /\
    Binary64.home self' = Binary64.home Binary64.square100.
Proof.
  assert (X : Binary64.rejected
                (fst (Binary64.zoom_limits (-1) Binary64.square100)) = false)
    by (vm_compute; reflexivity).
  assert (Y : Binary64.rejected
                (snd (Binary64.zoom_limits (-1) Binary64.square100)) = false)
    by (vm_compute; reflexivity).
  split; [exact X | split; [exact Y |]].
  destruct (proj1 (proj1 zoom_has_no_guard (-1)%float Binary64.square100) X Y)
    as (self' & Z & _ & _ & H & _).
  exists self'. split; [exact Z | exact H].
Defined.













(** ** Empty layers, from the loader to [main] *)

Module LayerFacts.
Import Loader Drawing.

Lemma iloc_rows_drawable (r : nat) (df : DataFrame Q) :
  rectangular_frame df ->
  (List.length (frame_rows df) <= r)%nat \/ (6 <= n_columns df)%nat ->
  Forall (fun row => List.length row = 4%nat) (array_rows (iloc r 2 6 df)).
Proof.
  intros W [L | C].
  - pose proof (TableFacts.iloc_rows r 2 6 df) as N.
    destruct (array_rows (iloc r 2 6 df)); [constructor | cbn in N; lia].
  - apply DrawingFacts.iloc_rows_four; assumption.
Qed.

(** C9, amended.  When the two building sheets can be read, the loader
    returns the wall and slab arrays whether or not they are empty, printing
    a warning for each empty one and nothing else; the stair layer is always
    absent, with no message.  [main] then goes on to the drawing and the
    constructor when each of the two arrays has no row or comes from a sheet
    of at least six columns, the sensors permitting; but an array that is
    empty because its sheet has fewer than six columns, while a row is left
    after those skipped, makes the drawing raise [ValueError].  A sensor
    sheet that can be read is returned whether or not it is empty, an empty
    one with a warning of the same kind; a sensor file that cannot be read
    gives no data and one printed line.  The sensors stop [main] in one
    case: a sheet with a row after the first and fewer than five columns
    makes it raise [IndexError]. *)
Theorem empty_layers_warn :
  forall (read_excel : string -> string -> read_outcome (DataFrame Q))
         (autoscale : Axes -> Binary64.lim * Binary64.lim)
         (df_wall df_slab1 : DataFrame Q),
    read_excel building_file_path "wall"%string = Frame df_wall ->
    read_excel building_file_path "slab1"%string = Frame df_slab1 ->
    let r := read_excel_data read_excel building_file_path in
    let wall_data := iloc 1 2 6 df_wall in
    let slab1_data := iloc 2 2 6 df_slab1 in
    let rs := read_sensor_data read_excel sensor_file_path in
    (snd r = (Some wall_data, Some slab1_data, None) /\
     (In warn_wall_empty (fst r) <-> size wall_data = 0%nat) /\
     (In warn_slab_empty (fst r) <-> size slab1_data = 0%nat) /\
     (forall m, In m (fst r) -> m = warn_wall_empty \/ m = warn_slab_empty)) /\
    (rectangular_frame df_wall -> rectangular_frame df_slab1 ->
     (List.length (frame_rows df_wall) <= 1)%nat \/ (6 <= n_columns df_wall)%nat ->
     (List.length (frame_rows df_slab1) <= 2)%nat \/ (6 <= n_columns df_slab1)%nat ->
     sensors_usable read_excel ->
     exists ax,
       List.length (patches ax)
       = (List.length (array_rows slab1_data)
          + List.length (array_rows wall_data))%nat /\
       forall viewer,
         Binary64.setup_plot (fst (autoscale ax)) (snd (autoscale ax))
           (Some (33950, 20000)%float) 0.5%float
         = Binary64.Returned viewer ->
         snd (main read_excel autoscale) = Returned (Some (ax, viewer))) /\
    (rectangular_frame df_wall -> rectangular_frame df_slab1 ->
     sensors_usable read_excel ->
     ((2 < List.length (frame_rows df_slab1))%nat /\ (n_columns df_slab1 < 6)%nat)
     \/ (((List.length (frame_rows df_slab1) <= 2)%nat \/ (6 <= n_columns df_slab1)%nat)
         /\ (1 < List.length (frame_rows df_wall))%nat
         /\ (n_columns df_wall < 6)%nat) ->
     snd (main read_excel autoscale) = Raised ValueError) /\
    (forall df_sensor : DataFrame Q,
        read_excel sensor_file_path "Sheet1"%string = Frame df_sensor ->
        snd rs = Some (iloc 1 3 5 df_sensor) /\
        (In warn_sensor_empty (fst rs) <-> size (iloc 1 3 5 df_sensor) = 0%nat) /\
        (forall m, In m (fst rs) -> m = warn_sensor_empty) /\
        ((1 < List.length (frame_rows df_sensor))%nat ->
         (n_columns df_sensor < 5)%nat ->
         snd (main read_excel autoscale) = Raised IndexError)) /\
    (read_excel sensor_file_path "Sheet1"%string = RaiseFileNotFound ->
     rs = ([error_sensor_file_not_found sensor_file_path], None)) /\
    (forall e,
        read_excel sensor_file_path "Sheet1"%string = RaiseException e ->
        rs = ([error_sensor_reading e], None)).
Proof.
  intros read_excel autoscale dfw dfs Ew Es. cbv zeta.
  destruct (LoaderFacts.loader_only_warns Q read_excel building_file_path)
    as (B & _).
  specialize (B dfw dfs Ew Es). cbv zeta in B.
  destruct B as (B1 & _ & B3 & B4 & B5).
  destruct (LoaderFacts.loader_only_warns Q read_excel sensor_file_path)
    as (_ & _ & S3 & S4 & S5).
  split; [split; [exact B1 | split; [exact B3 | split; [exact B4 | exact B5]]] |].
  split; [| split; [| split; [| split]]].
  - intros Ww Ws Dw Ds U.
    destruct (DrawingFacts.main_reaches_the_constructor read_excel autoscale
                dfw dfs Ew Es) as (ax & P & M);
      [apply iloc_rows_drawable; assumption
      | apply iloc_rows_drawable; assumption | exact U |].
    exists ax. split.
    + rewrite P, length_app, !length_map. reflexivity.
    + intros viewer V. rewrite V in M. exact M.
  - intros Ww Ws U D.
    apply (DrawingFacts.main_raises_in_the_drawing read_excel autoscale
             dfw dfs Ew Es U).
    destruct D as [[L C] | (Ds & L & C)].
    + left. apply DrawingFacts.iloc_rows_not_four; assumption.
    + right. split; [apply iloc_rows_drawable; assumption |].
      apply DrawingFacts.iloc_rows_not_four; assumption.
  - intros df E. specialize (S3 df E). cbv zeta in S3.
    destruct S3 as (T1 & T2 & T3).
    split; [exact T1 | split; [exact T2 | split; [exact T3 |]]].
    intros L C.
    exact (proj1 (DrawingFacts.main_raises_on_narrow_sensors read_excel
                    autoscale df E L C)).
  - exact S4.
  - exact S5.
Qed.

Lemma empty_layers_warn_witness :
  In warn_wall_empty (fst (read_excel_data rowless_wall_book building_file_path)) /\
  sensors_usable rowless_wall_book /\
  (exists ax viewer,
      snd (main rowless_wall_book fixed_autoscale) = Returned (Some (ax, viewer)) /\
      List.length (patches ax) = 1%nat) /\
  In warn_wall_empty (fst (read_excel_data narrow_wall_book building_file_path)) /\
  sensors_usable narrow_wall_book /\
  snd (main narrow_wall_book fixed_autoscale) = Raised ValueError.
Proof.
  assert (U1 : sensors_usable rowless_wall_book)
    by (intros df E; injection E as <-; right; cbn; lia).
  assert (U2 : sensors_usable narrow_wall_book)
    by (intros df E; injection E as <-; right; cbn; lia).
  assert (Ws : rectangular_frame
                 (mkFrame 6 [[0; 0; 0; 0; 0; 0]; [0; 0; 0; 0; 0; 0];
                             [1; 1; 0; 4; 0; 4]]))
    by (repeat constructor).
  assert (W1 : rectangular_frame (mkFrame 6 [[0; 0; 0; 0; 0; 0]]))
    by (repeat constructor).
  assert (W2 : rectangular_frame (mkFrame 2 [[0; 0]; [1; 1]]))
    by (repeat constructor).
  destruct (empty_layers_warn rowless_wall_book fixed_autoscale _ _
              eq_refl eq_refl) as ((_ & A & _) & D & _).
  destruct (empty_layers_warn narrow_wall_book fixed_autoscale _ _
              eq_refl eq_refl) as ((_ & A' & _) & _ & V & _).
  split; [apply A; reflexivity |]. split; [exact U1 |]. split.
  - destruct (D W1 Ws) as (ax & L & M);
      [left; cbn; lia | right; cbn; lia | exact U1 |].
    exists ax. eexists. split; [| exact L].
    apply M. vm_compute. reflexivity.
  - split; [apply A'; reflexivity |]. split; [exact U2 |].
    apply (V W2 Ws U2). right.
    split; [right; cbn; lia | split; cbn; lia].
Defined.

End LayerFacts.

(** ** Redraws of the running viewer *)

Lemma b64_set_limits_and_draw_redraws (xlim ylim : Binary64.lim)
    (self : Binary64.BuildingPlanViewer) :
  Binary64.redraws (Binary64.state_of (Binary64.set_limits_and_draw xlim ylim self))
  = (Binary64.redraws self
     + (if Binary64.raised (Binary64.set_limits_and_draw xlim ylim self)
        then 0 else 1))%nat.
Proof.
  unfold Binary64.set_limits_and_draw, Binary64.set_xlim, Binary64.set_ylim.
  destruct (Binary64.set_lim (fst xlim) (snd xlim)); cbn;
    [| rewrite Nat.add_0_r; reflexivity].
  destruct (Binary64.set_lim (fst ylim) (snd ylim)); cbn;
    [rewrite Nat.add_1_r | rewrite Nat.add_0_r]; reflexivity.
Qed.

Lemma b64_exec_redraws (c : Binary64.call) (self : Binary64.BuildingPlanViewer) :
  Binary64.redraws (Binary64.state_of (Binary64.exec c self))
  = (Binary64.redraws self
     + (if Binary64.ignored c || Binary64.raised (Binary64.exec c self)
        then 0 else 1))%nat.
Proof.
  destruct c as [event | key | f | dx dy |];
    cbn [Binary64.exec Binary64.ignored orb];
    try apply b64_set_limits_and_draw_redraws.
  - unfold Binary64.on_scroll.
    destruct (Binary64.inaxes event), (Binary64.xdata event),
      (Binary64.ydata event); cbn [negb orb Binary64.state_of];
      try (rewrite Nat.add_0_r; reflexivity).
    apply b64_set_limits_and_draw_redraws.
  - destruct (b64_on_key_press_cases key self)
      as [(K & xlim & ylim & E) | (K & E)]; rewrite K, E; cbn [negb orb].
    + apply b64_set_limits_and_draw_redraws.
    + cbn. rewrite Nat.add_0_r. reflexivity.
Qed.

(** A call asks for exactly one redraw when it is not ignored and does not
    raise, and for none otherwise: after a run the number of redraw requests
    has grown by the number of calls that reached [draw_idle].  A call that
    raises in [set_xlim] or [set_ylim] is such a call without a redraw: of
    two zooms by 1e200 on the square the second raises, and one redraw is
    requested. *)
Theorem redraws_count_completed_calls :
  (forall (cs : list Binary64.call) (self : Binary64.BuildingPlanViewer),
      Binary64.redraws (Binary64.run cs self)
      = (Binary64.redraws self + Binary64.completed cs self)%nat) /\
  (forall (c : Binary64.call) (self : Binary64.BuildingPlanViewer),
      Binary64.completed [c] self
      = if Binary64.ignored c || Binary64.raised (Binary64.exec c self)
        then 0%nat else 1%nat) /\
  Binary64.redraws
    (Binary64.run [Binary64.Zoom 1e200; Binary64.Zoom 1e200] Binary64.square100)
  = 1%nat.
Proof.
  split; [| split].
  - induction cs as [| c cs IH]; intro self;
      cbn [Binary64.run fold_left Binary64.completed].
    + rewrite Nat.add_0_r. reflexivity.
    + fold (Binary64.run cs (Binary64.state_of (Binary64.exec c self))).
      rewrite IH, b64_exec_redraws, Nat.add_assoc. reflexivity.
  - intros c self. cbn [Binary64.completed]. rewrite Nat.add_0_r. reflexivity.
  - vm_compute. reflexivity.
Qed.
